(** * Deepseek-AI-Bot: the conversational pipeline, embedded in Rocq

    A shallow embedding of the Python services of the repository
    ([services/chat_service.py], [services/document_processor.py],
    [services/export_service.py], [models/schemas.py] and the download route
    of [main.py]) together with the properties its specification states
    about them.

    Conventions of the embedding:
    - a Python [str] is a [string]; one character of the model stands for one
      character of the Python string;
    - the dictionaries [self.conversations] and [self.metadata] are [gmap]s
      keyed by strings; the dictionaries with a fixed set of keys (a
      conversation, a dumped pydantic model) are records;
    - the outside world (the embedding model, the vector store, the language
      model, the file parsers, [uuid4], [datetime.now]) is a set of oracles
      whose answers are arguments of the embedded functions;
    - a function that raises returns [Raise e], and a generator returns the
      list of the events it yields. *)

From Stdlib Require Import ZArith Lia Bool Ascii.
From Stdlib Require String DecimalString.
From stdpp Require Import gmap strings list fin_maps.

Local Open Scope string_scope.
Local Open Scope list_scope.

(** ** Python strings *)

Module Py.

(** [s.startswith(p)] *)
Fixpoint startswith (s p : string) {struct p} : bool :=
  match p, s with
  | EmptyString, _ => true
  | String a p', String b s' => Ascii.eqb a b && startswith s' p'
  | String _ _, EmptyString => false
  end.

(** [s.endswith(suf)]: [suf] is [s] itself or a suffix of its tail. *)
Fixpoint endswith (s suf : string) : bool :=
  String.eqb s suf ||
  match s with
  | EmptyString => false
  | String _ t => endswith t suf
  end.

(** [s[:n]] for a non-negative [n]. *)
Fixpoint take (n : nat) (s : string) : string :=
  match n, s with
  | S k, String c t => String c (take k t)
  | _, _ => EmptyString
  end.

(** [s[:-n]] for a positive [n]: all but the last [n] characters. *)
Definition drop_last (n : nat) (s : string) : string :=
  take (String.length s - n) s.

(** [sep.join(parts)] *)
Fixpoint join (sep : string) (parts : list string) : string :=
  match parts with
  | [] => ""
  | [p] => p
  | p :: rest => p +:+ sep +:+ join sep rest
  end.

(** [s.split(sep)] for a one-character separator: never the empty list. *)
Fixpoint split (sep : ascii) (s : string) : list string :=
  match s with
  | EmptyString => [""]
  | String c t =>
      if Ascii.eqb c sep then "" :: split sep t
      else match split sep t with
           | h :: r => String c h :: r
           | [] => [String c ""]
           end
  end.

(** [s.lower()] on the ASCII letters. *)
Definition lower_char (c : ascii) : ascii :=
  let n := Ascii.nat_of_ascii c in
  if (65 <=? n)%nat && (n <=? 90)%nat then Ascii.ascii_of_nat (n + 32) else c.

Fixpoint lower (s : string) : string :=
  match s with
  | EmptyString => EmptyString
  | String c t => String (lower_char c) (lower t)
  end.

(** [l[-n:]] for a positive [n]: the last [n] elements, all of them when
    the list is shorter. *)
Definition last_n {A} (n : nat) (l : list A) : list A :=
  drop (length l - n) l.

(** [xs[-1]] of a list that is never empty (the result of [split]). *)
Definition last_part (parts : list string) : string :=
  List.last parts "".

End Py.

(** ** [os.path] on POSIX *)

Module posixpath.

(** [os.path.join(a, b)] (CPython's [posixpath.join] with one component):
    an absolute [b] replaces [a]; otherwise [b] is appended, after a
    separator unless [a] is empty or already ends with one. *)
Definition join (a b : string) : string :=
  if Py.startswith b "/" then b
  else if String.eqb a "" || Py.endswith a "/" then a +:+ b
  else a +:+ "/" +:+ b.

Definition isabs (p : string) : bool := Py.startswith p "/".

(** One step of the loop of [posixpath.normpath]; the components kept so
    far are held last-first. *)
Definition norm_step (abs : bool) (kept : list string) (comp : string)
  : list string :=
  if String.eqb comp "" || String.eqb comp "." then kept
  else if String.eqb comp ".." then
    match kept with
    | [] => if abs then [] else [comp]
    | top :: below => if String.eqb top ".." then comp :: kept else below
    end
  else comp :: kept.

(** The components of [normpath(p)], first to last. *)
Definition components (p : string) : list string :=
  rev (fold_left (norm_step (isabs p)) (Py.split "/" p) []).

Fixpoint starts_with (pre l : list string) : bool :=
  match pre, l with
  | [], _ => true
  | a :: pre', b :: l' => String.eqb a b && starts_with pre' l'
  | _ :: _, [] => false
  end.

(** [p] names [dir] or something below it: the normalised components of
    [dir] begin those of [p]. *)
Definition inside (dir p : string) : bool :=
  Bool.eqb (isabs dir) (isabs p) && starts_with (components dir) (components p).

End posixpath.

(** ** Exceptions *)

(** The outcome of a call that may raise; [e] is [str(e)]. *)
Inductive result (A : Type) : Type :=
| Ok (a : A)
| Raise (e : string).
Arguments Ok {A} a.
Arguments Raise {A} e.

(** ** JSON documents, as [json.load] returns them *)

(** The keys of one [JDict] are pairwise distinct. *)
#[warnings="-register-all"]
Inductive json : Type :=
| JNull
| JBool (b : bool)
| JInt (z : Z)
| JStr (s : string)
| JList (items : list json)
| JDict (fields : list (string * json)).

(** [d.get(key)] on the fields of a [JDict]. *)
Fixpoint jget (key : string) (fields : list (string * json)) : option json :=
  match fields with
  | [] => None
  | (k, v) :: rest => if String.eqb k key then Some v else jget key rest
  end.

(** ** models/schemas.py *)

Record Source : Type := {
  document_name : string;
  page_number : Z;
  content_snippet : string
}.

Record ChatResponse : Type := {
  response : string;
  sources : option (list Source);
  conversation_id : option string;
  user_message : string
}.

Record DocumentInfo : Type := {
  info_id : string;
  filename : string;
  document_type : string;
  upload_date : string;
  total_pages : option Z;
  status : string;
  embedding_status : string;
  error : option string
}.

(** [Source.model_dump()] *)
Definition Source_model_dump (s : Source) : json :=
  JDict [("document_name", JStr (document_name s));
         ("page_number", JInt (page_number s));
         ("content_snippet", JStr (content_snippet s))].

(** [ChatResponse.model_dump()]: the nested sources are dumped too. *)
Definition ChatResponse_model_dump (r : ChatResponse) : json :=
  JDict [("response", JStr (response r));
         ("sources", match sources r with
                     | None => JNull
                     | Some l => JList (map Source_model_dump l)
                     end);
         ("conversation_id", match conversation_id r with
                             | None => JNull
                             | Some c => JStr c
                             end);
         ("user_message", JStr (user_message r))].

(** [Source] built from the keywords of a dictionary: the three fields are required. Only values of the declared
    type are accepted; the conversions pydantic would try on other values (a
    numeric string for an [int]) are left out, as [model_dump] never writes
    a value that needs them. *)
Definition Source_validate (j : json) : option Source :=
  match j with
  | JDict d =>
      match jget "document_name" d, jget "page_number" d,
            jget "content_snippet" d with
      | Some (JStr n), Some (JInt p), Some (JStr c) =>
          Some {| document_name := n; page_number := p; content_snippet := c |}
      | _, _, _ => None
      end
  | _ => None
  end.

Fixpoint Sources_validate (items : list json) : option (list Source) :=
  match items with
  | [] => Some []
  | j :: rest =>
      match Source_validate j, Sources_validate rest with
      | Some s, Some l => Some (s :: l)
      | _, _ => None
      end
  end.

(** [ChatResponse] built from the keywords of a dictionary: [response] and [user_message] are required strings,
    [sources] and [conversation_id] default to [None]. [None] is a
    validation error. *)
Definition ChatResponse_validate (d : list (string * json)) : option ChatResponse :=
  match jget "response" d, jget "user_message" d with
  | Some (JStr r), Some (JStr u) =>
      let srcs :=
        match jget "sources" d with
        | None | Some JNull => Some None
        | Some (JList items) =>
            match Sources_validate items with
            | Some l => Some (Some l)
            | None => None
            end
        | Some _ => None
        end in
      let cid :=
        match jget "conversation_id" d with
        | None | Some JNull => Some None
        | Some (JStr c) => Some (Some c)
        | Some _ => None
        end in
      match srcs, cid with
      | Some s, Some c =>
          Some {| response := r; sources := s; conversation_id := c;
                  user_message := u |}
      | _, _ => None
      end
  | _, _ => None
  end.

(** ** services/chat_service.py: the data *)

Definition nl : string := String (Ascii.ascii_of_nat 10) "".

(** The langchain message objects the service builds. *)
Inductive BaseMessage : Type :=
| SystemMessage (content : string)
| HumanMessage (content : string)
| AIMessage (content : string).

(** An element of a conversation's ['history'] list: a message object
    appended by a chat turn, or a plain JSON value read back from disk. *)
Inductive history_item : Type :=
| Message (m : BaseMessage)
| Plain (j : json).

(** An element of a conversation's ['messages'] list: a [ChatResponse]
    object, or a JSON value that is not a dictionary, which the loader
    keeps as it is. *)
Inductive message_item : Type :=
| Turn (r : ChatResponse)
| PlainItem (j : json).

(** The live handle to the vector store. *)
Record Chroma : Type := { persist_directory : string }.

(** The dictionary [{'id', 'vectorstore', 'history', 'messages'}]. *)
Record conversation : Type := {
  conv_id : string;
  vectorstore : Chroma;
  history : list history_item;
  messages : list message_item
}.

(** The JSON document of one conversation file: [conv_data] without its
    ['vectorstore']. *)
Record conv_data : Type := {
  data_id : string;
  data_history : list json;
  data_messages : list json
}.

(** What a file of the conversations directory holds: a whole JSON document,
    or text on which [json.load] raises (an interrupted dump, an empty
    file). *)
Inductive file : Type :=
| Complete (doc : conv_data)
| Unreadable.

(** A retrieved chunk: langchain's [Document] with the metadata the
    document processor stores. *)
Record chunk_metadata : Type := {
  md_document_name : option string;
  md_document_id : option string;
  md_page_number : option Z;
  md_chunk : option Z
}.

Record Document : Type := {
  page_content : string;
  metadata : chunk_metadata
}.

(** One increment of the language model; [None] when the object has no
    [content] attribute. *)
Record AIMessageChunk : Type := { content : option string }.

(** What [self.llm.astream(messages)] delivers: the increments, then the
    normal end of the iteration or an exception. *)
Record llm_stream : Type := {
  increments : list AIMessageChunk;
  interrupted : option string
}.

(** The world outside the service. [uuid4 n] is the value of the [n]-th call
    of [str(uuid4())]; [chroma_up] tells whether [Chroma(...)] returns;
    [can_write path] whether [open(path, 'w')] does. *)
Record World : Type := {
  uuid4 : nat -> string;
  chroma_up : bool;
  can_write : string -> bool;
  similarity_search : string -> result (list Document);
  astream : list history_item -> llm_stream
}.

(** The service object. [conversation_files] is the content of the directory
    [self.conversations_dir], keyed by the file name that is joined to the
    directory; a name with a separator is a file of another directory. *)
Record ChatService : Type := {
  db_directory : string;
  conversations : gmap string conversation;
  conversation_files : gmap string file;
  uuid_calls : nat
}.

Definition with_conversations (c : gmap string conversation) (svc : ChatService)
  : ChatService :=
  {| db_directory := db_directory svc; conversations := c;
     conversation_files := conversation_files svc;
     uuid_calls := uuid_calls svc |}.

Definition with_files (f : gmap string file) (svc : ChatService) : ChatService :=
  {| db_directory := db_directory svc; conversations := conversations svc;
     conversation_files := f; uuid_calls := uuid_calls svc |}.

Definition after_uuid4 (svc : ChatService) : ChatService :=
  {| db_directory := db_directory svc; conversations := conversations svc;
     conversation_files := conversation_files svc;
     uuid_calls := S (uuid_calls svc) |}.

(** The dictionary a chat call yields (before [json.dumps]). *)
Record event : Type := {
  ev_response : string;
  ev_sources : list Source;
  ev_conversation_id : string;
  ev_user_message : string
}.

(** The [yield] statement an event comes from. *)
Inductive phase : Type := Thinking | Streaming | Failure.

Definition phase_eqb (a b : phase) : bool :=
  match a, b with
  | Thinking, Thinking | Streaming, Streaming | Failure, Failure => true
  | _, _ => false
  end.

(** ** services/chat_service.py: persistence *)

(** [json.dump] on one history element: a message object is not
    serialisable. *)
Definition dump_history_item (h : history_item) : option json :=
  match h with
  | Plain j => Some j
  | Message _ => None
  end.

(** [msg.model_dump() if hasattr(msg, 'model_dump') else msg] *)
Definition dump_message_item (m : message_item) : json :=
  match m with
  | Turn r => ChatResponse_model_dump r
  | PlainItem j => j
  end.

(** The content of the file after [json.dump(conv_data, f, ...)]: the
    encoder writes piece by piece and raises [TypeError] at the first
    element it cannot encode, which leaves an unfinished document. *)
Definition json_dump (conv : conversation) : file :=
  match mapM dump_history_item (history conv) with
  | Some h =>
      Complete {| data_id := conv_id conv; data_history := h;
                  data_messages := map dump_message_item (messages conv) |}
  | None => Unreadable
  end.

Definition _save_conversation (w : World) (conversation_id : string)
    (svc : ChatService) : ChatService :=
  match conversations svc !! conversation_id with
  | None => svc
  | Some conv =>
      let filepath := conversation_id +:+ ".json" in
      if can_write w filepath
      then with_files (<[filepath := json_dump conv]> (conversation_files svc)) svc
      else svc
  end.

(** The element the loader keeps for [msg]: a [ChatResponse] built from
    [msg] when it is a dictionary, [msg] itself otherwise; [None] when the
    validation raises. *)
Definition load_message (j : json) : option message_item :=
  match j with
  | JDict d => Turn <$> ChatResponse_validate d
  | _ => Some (PlainItem j)
  end.

(** The body of the [try] of [_load_conversations] for one file; [None]
    when it raises, and the file is skipped. *)
Definition load_file (w : World) (db : string) (f : file) : option conversation :=
  match f with
  | Unreadable => None
  | Complete doc =>
      match mapM load_message (data_messages doc) with
      | None => None
      | Some msgs =>
          if chroma_up w
          then Some {| conv_id := data_id doc;
                       vectorstore := {| persist_directory := db |};
                       history := map Plain (data_history doc);
                       messages := msgs |}
          else None
      end
  end.

Fixpoint has_separator (s : string) : bool :=
  match s with
  | EmptyString => false
  | String c t => Ascii.eqb c "/" || has_separator t
  end.

(** One round of the loop over [os.listdir(self.conversations_dir)]; the
    listing holds the names without a separator. *)
Definition load_entry (w : World) (db : string) (name : string) (f : file)
    (acc : gmap string conversation) : gmap string conversation :=
  if negb (has_separator name) && Py.endswith name ".json" then
    match load_file w db f with
    | Some conv => <[Py.drop_last 5 name := conv]> acc
    | None => acc
    end
  else acc.

Definition _load_conversations (w : World) (db : string)
    (files : gmap string file) : gmap string conversation :=
  map_fold (load_entry w db) ∅ files.

(** ** services/chat_service.py: sessions *)

(** The value [conversation_id] has where Python tests its truth: [None] and
    the empty string are both false. *)
Definition supplied (conversation_id : option string) : option string :=
  match conversation_id with
  | Some c => if String.eqb c "" then None else Some c
  | None => None
  end.

Definition new_conversation (svc : ChatService) (new_id : string) : conversation :=
  {| conv_id := new_id;
     vectorstore := {| persist_directory := db_directory svc |};
     history := [];
     messages := [] |}.

(** The part of [_get_or_create_conversation] after [new_id] is known. *)
Definition create_conversation (w : World) (new_id : string) (svc : ChatService)
  : result (string * conversation) * ChatService :=
  if chroma_up w then
    let conv := new_conversation svc new_id in
    (Ok (new_id, conv),
     _save_conversation w new_id
       (with_conversations (<[new_id := conv]> (conversations svc)) svc))
  else (Raise "Chroma", svc).

(** Returns the key under which the conversation is held in
    [self.conversations] together with the conversation: the Python function
    returns the very object stored there. *)
Definition _get_or_create_conversation (w : World)
    (conversation_id : option string) (svc : ChatService)
  : result (string * conversation) * ChatService :=
  match supplied conversation_id with
  | Some c =>
      match conversations svc !! c with
      | Some conv => (Ok (c, conv), svc)
      | None => create_conversation w c svc
      end
  | None =>
      create_conversation w (uuid4 w (uuid_calls svc)) (after_uuid4 svc)
  end.

Definition get_conversation_history (svc : ChatService) (conversation_id : string)
  : list message_item :=
  match conversations svc !! conversation_id with
  | None => []
  | Some conv => messages conv
  end.

(** ** services/chat_service.py: one chat call *)

Definition system_message : BaseMessage :=
  SystemMessage
    ("You are a helpful AI assistant that answers questions based on the provided context. "
     +:+ nl +:+
     "Always provide detailed, accurate responses and cite your sources when possible. "
     +:+ nl +:+
     "When you're thinking or analyzing, start your response with '<think>' and end with '</think>' before providing your final answer.").

Definition thinking_response : string :=
  "<think>Analyzing the context and formulating a response...</think>" +:+ nl.

Definition apology : string :=
  "I apologize, but I encountered an error while processing your request.".

(** The [Source] built for one retrieved chunk. *)
Definition Source_of (doc : Document) : Source :=
  {| document_name := default "Unknown" (md_document_name (metadata doc));
     page_number := default 1%Z (md_page_number (metadata doc));
     content_snippet := Py.take 200 (page_content doc) +:+ "..." |}.

(** The message list handed to the language model. *)
Definition build_messages (context message : string) (history : list history_item)
  : list history_item :=
  [Message system_message;
   Message (HumanMessage ("Context: " +:+ context +:+ nl +:+ nl +:+
                          "Question: " +:+ message))]
  ++ match history with
     | [] => []
     | _ :: _ => Py.last_n 4 history
     end.

(** The loop over the increments: [event_of] builds the dictionary yielded
    for an accumulated text. Returns the events and the final
    [full_response]. *)
Fixpoint stream_events (event_of : string -> event) (full_response : string)
    (chunks : list AIMessageChunk) : list event * string :=
  match chunks with
  | [] => ([], full_response)
  | chunk :: rest =>
      match content chunk with
      | Some delta =>
          let full_response := full_response +:+ delta in
          let (evs, final) := stream_events event_of full_response rest in
          (event_of full_response :: evs, final)
      | None => stream_events event_of full_response rest
      end
  end.

(** The dictionary yielded for the text [r]. *)
Definition chat_event (srcs : list Source) (cid message r : string) : event :=
  {| ev_response := r; ev_sources := srcs;
     ev_conversation_id := cid; ev_user_message := message |}.

Definition error_event (srcs : list Source) (cid message : string) : event :=
  chat_event srcs cid message apology.

(** What one call of [get_streaming_response] does when it is read to its
    end: the events in the order they are yielded, the service afterwards,
    and the message list given to [astream] when the call got that far. *)
Record run : Type := {
  events : list (phase * event);
  service : ChatService;
  prompt : option (list history_item)
}.

Definition get_streaming_response (w : World) (message : string)
    (conversation_id : option string) (svc : ChatService) : run :=
  match _get_or_create_conversation w conversation_id svc with
  | (Raise _, svc1) =>
      (* neither [sources] nor [conv_id] is bound *)
      {| events := [(Failure, error_event [] (uuid4 w (uuid_calls svc1)) message)];
         service := after_uuid4 svc1;
         prompt := None |}
  | (Ok (key, conv), svc1) =>
      let cid := conv_id conv in
      match similarity_search w message with
      | Raise _ =>
          (* [conv_id] is bound, [sources] is not *)
          {| events := [(Failure, error_event [] cid message)];
             service := svc1;
             prompt := None |}
      | Ok docs =>
          let context := Py.join nl (map page_content docs) in
          let srcs := map Source_of docs in
          let event_of := chat_event srcs cid message in
          let msgs := build_messages context message (history conv) in
          let out := astream w msgs in
          let (streamed, full_response) :=
            stream_events event_of "" (increments out) in
          let yielded :=
            (Thinking, event_of thinking_response)
            :: map (pair Streaming) streamed in
          match interrupted out with
          | Some _ =>
              {| events := yielded ++ [(Failure, error_event srcs cid message)];
                 service := svc1;
                 prompt := Some msgs |}
          | None =>
              let chat_response :=
                {| response := full_response; sources := Some srcs;
                   conversation_id := Some cid; user_message := message |} in
              let conv' :=
                {| conv_id := cid; vectorstore := vectorstore conv;
                   history := history conv ++
                              [Message (HumanMessage message);
                               Message (AIMessage full_response)];
                   messages := messages conv ++ [Turn chat_response] |} in
              let svc2 :=
                with_conversations (<[key := conv']> (conversations svc1)) svc1 in
              {| events := yielded;
                 service := _save_conversation w cid svc2;
                 prompt := Some msgs |}
          end
      end
  end.

(** ** services/document_processor.py *)

(** What [pd.read_csv] returns, as far as the processor looks at it. *)
Record DataFrame : Type := {
  df_len : nat;
  df_to_string : string
}.

Record UploadFile : Type := {
  upload_filename : string;
  upload_content : string
}.

(** The world outside the processor: the identifier and the time of this
    call, the outcome of opening and writing the file of a given name in the
    upload directory ([None] when nothing raises; a name with a separator
    points into a directory that has to exist), the four parsers applied to
    the saved bytes, the text splitter, and the outcome of storing the
    chunks ([Chroma(...)] and [add_texts]), [None] when nothing raises. *)
Record IngestWorld : Type := {
  new_doc_id : string;
  now : string;
  write_upload : string -> option string;
  PdfReader_pages : string -> result (list string);
  docx2txt_process : string -> result string;
  json_load : string -> result json;
  json_dumps : json -> string;
  read_csv : string -> result DataFrame;
  split_text : string -> list string;
  add_texts : list string -> list chunk_metadata -> option string
}.

(** The dictionary [self.metadata]: its items in insertion order, as Python
    keeps them; the keys are pairwise distinct. *)
Record pydict : Type := { items : list (string * DocumentInfo) }.

(** [d.get(key)] *)
Fixpoint assoc_get (key : string) (l : list (string * DocumentInfo))
  : option DocumentInfo :=
  match l with
  | [] => None
  | (k, v) :: rest => if String.eqb k key then Some v else assoc_get key rest
  end.

(** [d[key] = value]: a key that is present keeps its place, a new key goes
    to the end. *)
Fixpoint assoc_set (key : string) (value : DocumentInfo)
    (l : list (string * DocumentInfo)) : list (string * DocumentInfo) :=
  match l with
  | [] => [(key, value)]
  | (k, v) :: rest =>
      if String.eqb k key then (k, value) :: rest
      else (k, v) :: assoc_set key value rest
  end.

(** [d[key]] changed in place by [f]. *)
Fixpoint assoc_alter (f : DocumentInfo -> DocumentInfo) (key : string)
    (l : list (string * DocumentInfo)) : list (string * DocumentInfo) :=
  match l with
  | [] => []
  | (k, v) :: rest =>
      if String.eqb k key then (k, f v) :: rest
      else (k, v) :: assoc_alter f key rest
  end.

#[global] Instance pydict_empty : Empty pydict := {| items := [] |}.
#[global] Instance pydict_lookup : Lookup string DocumentInfo pydict :=
  fun key d => assoc_get key (items d).
#[global] Instance pydict_insert : Insert string DocumentInfo pydict :=
  fun key value d => {| items := assoc_set key value (items d) |}.
#[global] Instance pydict_alter : Alter string DocumentInfo pydict :=
  fun f key d => {| items := assoc_alter f key (items d) |}.

(** The processor object: [self.metadata], the content of the metadata file,
    and the uploaded files by name. Writing the metadata file is taken to
    succeed. *)
Record DocumentProcessor : Type := {
  dp_metadata : pydict;
  dp_metadata_file : pydict;
  dp_uploads : gmap string string
}.

Definition _save_metadata (dp : DocumentProcessor) : DocumentProcessor :=
  {| dp_metadata := dp_metadata dp; dp_metadata_file := dp_metadata dp;
     dp_uploads := dp_uploads dp |}.

Definition with_metadata (m : pydict) (dp : DocumentProcessor)
  : DocumentProcessor :=
  {| dp_metadata := m; dp_metadata_file := dp_metadata_file dp;
     dp_uploads := dp_uploads dp |}.

Definition _process_pdf (iw : IngestWorld) (bytes : string) : result (string * Z) :=
  match PdfReader_pages iw bytes with
  | Raise e => Raise e
  | Ok pages =>
      Ok (fold_left (fun text page => text +:+ page +:+ nl) pages "",
          Z.of_nat (length pages))
  end.

Definition _process_docx (iw : IngestWorld) (bytes : string) : result (string * Z) :=
  match docx2txt_process iw bytes with
  | Raise e => Raise e
  | Ok text => Ok (text, Z.max 1 (Z.of_nat (String.length text) / 3000))
  end.

Definition _process_json (iw : IngestWorld) (bytes : string) : result (string * Z) :=
  match json_load iw bytes with
  | Raise e => Raise e
  | Ok data =>
      Ok (json_dumps iw data,
          Z.max 1 (match data with
                   | JDict fields => Z.of_nat (length fields)
                   | _ => 1
                   end))
  end.

Definition _process_csv (iw : IngestWorld) (bytes : string) : result (string * Z) :=
  match read_csv iw bytes with
  | Raise e => Raise e
  | Ok df => Ok (df_to_string df, Z.max 1 (Z.of_nat (df_len df) / 100))
  end.

(** The dispatch on the lower-cased file name. *)
Definition extract_text (iw : IngestWorld) (file : UploadFile) : result (string * Z) :=
  let filename_lower := Py.lower (upload_filename file) in
  if Py.endswith filename_lower ".pdf" then _process_pdf iw (upload_content file)
  else if Py.endswith filename_lower ".docx" then _process_docx iw (upload_content file)
  else if Py.endswith filename_lower ".json" then _process_json iw (upload_content file)
  else if Py.endswith filename_lower ".csv" then _process_csv iw (upload_content file)
  else Raise "Unsupported file type. File must be one of: PDF, DOCX, JSON, CSV".

(** [metadata_list]: one dictionary per chunk, numbered from 0. *)
Definition metadata_list (name doc_id : string) (n : nat) : list chunk_metadata :=
  map (fun i => {| md_document_name := Some name;
                   md_document_id := Some doc_id;
                   md_page_number := Some (Z.of_nat i + 1)%Z;
                   md_chunk := Some (Z.of_nat i) |})
      (seq 0 n).

(** [self.metadata[doc_id].update({'embedding_status': s})] *)
Definition set_embedding_status (s : string) (d : DocumentInfo) : DocumentInfo :=
  {| info_id := info_id d; filename := filename d;
     document_type := document_type d; upload_date := upload_date d;
     total_pages := total_pages d; status := status d;
     embedding_status := s; error := error d |}.

Definition process_document (iw : IngestWorld) (file : UploadFile)
    (dp : DocumentProcessor) : result DocumentInfo * DocumentProcessor :=
  let doc_id := new_doc_id iw in
  let name := upload_filename file in
  let file_path := doc_id +:+ "_" +:+ name in
  match write_upload iw file_path with
  | Some e => (Raise e, dp)
  | None =>
  let dp1 :=
    {| dp_metadata := dp_metadata dp; dp_metadata_file := dp_metadata_file dp;
       dp_uploads := <[file_path := upload_content file]> (dp_uploads dp) |} in
  match extract_text iw file with
  | Raise e => (Raise e, dp1)
  | Ok (text, pages) =>
      let chunks := split_text iw text in
      let doc_info :=
        {| info_id := doc_id; filename := name;
           document_type := Py.last_part (Py.split "." name);
           upload_date := now iw;
           total_pages := Some pages;
           status := "processed";
           embedding_status := "pending";
           error := None |} in
      let dp2 := _save_metadata (with_metadata (<[doc_id := doc_info]> (dp_metadata dp1)) dp1) in
      match add_texts iw chunks (metadata_list name doc_id (length chunks)) with
      | None =>
          let dp3 := with_metadata
                       (alter (set_embedding_status "completed") doc_id (dp_metadata dp2))
                       dp2 in
          (Ok (set_embedding_status "completed" doc_info), _save_metadata dp3)
      | Some e =>
          let dp3 := with_metadata
                       (alter (set_embedding_status "failed") doc_id (dp_metadata dp2))
                       dp2 in
          (Raise ("Failed to create embeddings: " +:+ e), _save_metadata dp3)
      end
  end
  end.

(** [list_documents]: the values of [self.metadata], in insertion order. *)
Definition list_documents (dp : DocumentProcessor) : list DocumentInfo :=
  snd <$> items (dp_metadata dp).

(** ** services/export_service.py and the download route of main.py *)

Definition get_export_path (export_dir filename : string) : string :=
  posixpath.join export_dir filename.

Inductive http_response : Type :=
| FileResponse (path filename : string)
| HTTPException (status_code : Z).

(** [download_file]: [exists] is [os.path.exists]. The 404 raised inside the
    [try] is caught by its own [except Exception] and raised again as a
    500. *)
Definition download_file (export_dir : string) (exists_ : string -> bool)
    (filename : string) : http_response :=
  let file_path := get_export_path export_dir filename in
  if negb (exists_ file_path) then HTTPException 500
  else FileResponse file_path filename.

(** ** Reading a run *)

(** The [response] fields of the events yielded by the streaming loop, in
    order. *)
Definition streaming_responses (r : run) : list string :=
  omap (fun pe => match fst pe with
                  | Streaming => Some (ev_response (snd pe))
                  | _ => None
                  end) (events r).

(** The text increments of a model run, in order. *)
Definition deltas (out : llm_stream) : list string :=
  omap content (increments out).

(** [full_response] after the given increments were added to [acc]. *)
Definition accumulate (acc : string) (ds : list string) : string :=
  fold_left String.append ds acc.

(** The ways a chat call fails before its turn is complete, with what is
    bound when the exception reaches the outer handler: the sources, the
    conversation id of the error event, and the service as session
    resolution left it. *)
Inductive chat_failure (w : World) (message : string)
    (conversation_id : option string) (svc : ChatService)
  : list Source -> string -> ChatService -> Prop :=
| resolution_failed e svc1 :
    _get_or_create_conversation w conversation_id svc = (Raise e, svc1) ->
    chat_failure w message conversation_id svc
      [] (uuid4 w (uuid_calls svc1)) svc1
| retrieval_failed key conv svc1 e :
    _get_or_create_conversation w conversation_id svc = (Ok (key, conv), svc1) ->
    similarity_search w message = Raise e ->
    chat_failure w message conversation_id svc [] (conv_id conv) svc1
| generation_failed key conv svc1 docs e :
    _get_or_create_conversation w conversation_id svc = (Ok (key, conv), svc1) ->
    similarity_search w message = Ok docs ->
    interrupted
      (astream w (build_messages (Py.join nl (map page_content docs)) message
                    (history conv))) = Some e ->
    chat_failure w message conversation_id svc
      (map Source_of docs) (conv_id conv) svc1.

(** The document written for a conversation that has no turn yet. *)
Definition empty_document (new_id : string) : file :=
  Complete {| data_id := new_id; data_history := []; data_messages := [] |}.

(** ** Sample worlds *)

Definition sample_chunk : Document :=
  {| page_content := "abc";
     metadata := {| md_document_name := Some "doc.pdf";
                    md_document_id := Some "d1";
                    md_page_number := Some 2%Z;
                    md_chunk := Some 1%Z |} |}.

(** A world in which everything works: the model answers in three
    increments, the second of which carries no content. *)
Definition sample_world : World :=
  {| uuid4 := fun n => "uuid-" +:+ String.string_of_list_ascii (repeat "x"%char n);
     chroma_up := true;
     can_write := fun _ => true;
     similarity_search := fun _ => Ok [sample_chunk];
     astream := fun _ =>
       {| increments := [ {| content := Some "Hel" |};
                          {| content := None |};
                          {| content := Some "lo" |} ];
          interrupted := None |} |}.

(** The same world with a model that breaks off after one increment. *)
Definition failing_world : World :=
  {| uuid4 := uuid4 sample_world;
     chroma_up := true;
     can_write := fun _ => true;
     similarity_search := fun _ => Ok [sample_chunk];
     astream := fun _ =>
       {| increments := [ {| content := Some "Hel" |} ];
          interrupted := Some "connection lost" |} |}.

(** A service started on an empty conversations directory. *)
Definition fresh_service : ChatService :=
  {| db_directory := "/srv/app/vector_db";
     conversations := ∅;
     conversation_files := ∅;
     uuid_calls := 0 |}.

(** The service after one completed chat turn. *)
Definition service_after_turn : ChatService :=
  service (get_streaming_response sample_world "hi" None fresh_service).

Definition sample_upload : UploadFile :=
  {| upload_filename := "Rows.CSV"; upload_content := "a,b" |}.

(** An ingest in which the upload is written unless its name points into a
    directory, the parsers work ([read_csv] finds [rows] rows) and storing
    the chunks has the outcome [stored]. *)
Definition sample_ingest (rows : nat) (stored : option string) : IngestWorld :=
  {| new_doc_id := "doc-1";
     now := "2025-01-01 00:00:00";
     write_upload := fun path =>
       if has_separator path then Some "No such file or directory" else None;
     PdfReader_pages := fun _ => Ok ["page"];
     docx2txt_process := fun _ => Ok "text";
     json_load := fun _ => Ok (JDict []);
     json_dumps := fun _ => "{}";
     read_csv := fun _ => Ok {| df_len := rows; df_to_string := "a b" |};
     split_text := fun text => [text];
     add_texts := fun _ _ => stored |}.

Definition empty_processor : DocumentProcessor :=
  {| dp_metadata := ∅; dp_metadata_file := ∅; dp_uploads := ∅ |}.

(** ** Start-up *)

(** [ChatService.__init__] on a conversations directory that holds [files]:
    the sessions are those the loader finds. *)
Definition ChatService_init (w : World) (db : string) (files : gmap string file)
  : ChatService :=
  {| db_directory := db;
     conversations := _load_conversations w db files;
     conversation_files := files;
     uuid_calls := 0 |}.

(** [DocumentProcessor.__init__] on the state a former processor left on
    disk: [self.metadata] is read from the metadata file. *)
Definition DocumentProcessor_init (disk : DocumentProcessor) : DocumentProcessor :=
  {| dp_metadata := dp_metadata_file disk;
     dp_metadata_file := dp_metadata_file disk;
     dp_uploads := dp_uploads disk |}.

(** ** The upload route of main.py *)

(** [s[n:]] for a non-negative [n]. *)
Fixpoint str_drop (n : nat) (s : string) : string :=
  match n, s with
  | S k, String _ t => str_drop k t
  | _, _ => s
  end.

(** [s.rfind(c)] for a one-character [c]; [None] stands for -1. *)
Fixpoint rfind (c : ascii) (s : string) : option nat :=
  match s with
  | EmptyString => None
  | String a t =>
      match rfind c t with
      | Some i => Some (S i)
      | None => if Ascii.eqb a c then Some 0 else None
      end
  end.

(** Some character of [s] is not a dot. *)
Fixpoint has_non_dot (s : string) : bool :=
  match s with
  | EmptyString => false
  | String c t => negb (Ascii.eqb c ".") || has_non_dot t
  end.

(** [os.path.splitext(p)] (CPython's [genericpath._splitext] with the
    separators of POSIX): the extension starts at the last dot, when that
    dot comes after the last separator and after a character of the file
    name that is not a dot. *)
Definition splitext (p : string) : string * string :=
  match rfind "." p with
  | None => (p, "")
  | Some dotIndex =>
      let filenameIndex :=
        match rfind "/" p with
        | None => 0
        | Some sepIndex => S sepIndex
        end in
      if (filenameIndex <=? dotIndex)%nat &&
         has_non_dot (Py.take (dotIndex - filenameIndex) (str_drop filenameIndex p))
      then (Py.take dotIndex p, str_drop dotIndex p)
      else (p, "")
  end.

Definition allowed_types : list string := [".pdf"; ".docx"; ".json"; ".csv"].

(** [ext in allowed_types] *)
Definition is_allowed (ext : string) : bool :=
  existsb (String.eqb ext) allowed_types.

(** What a route answers: the value it returns, or the [HTTPException] that
    leaves it. *)
Inductive http_result (A : Type) : Type :=
| Returned (a : A)
| HTTPError (status_code : Z).
Arguments Returned {A} a.
Arguments HTTPError {A} status_code.

(** [upload_document]: both 400s are raised inside the [try] and leave the
    route as a 500, like every exception of the processor. *)
Definition upload_document (iw : IngestWorld) (file : UploadFile)
    (dp : DocumentProcessor) : http_result DocumentInfo * DocumentProcessor :=
  let name := Py.lower (upload_filename file) in
  let file_ext := snd (splitext name) in
  if String.eqb file_ext "" then (HTTPError 500, dp)
  else if negb (is_allowed file_ext) then (HTTPError 500, dp)
  else
    match process_document iw file dp with
    | (Ok doc_info, dp') => (Returned doc_info, dp')
    | (Raise _, dp') => (HTTPError 500, dp')
    end.

(** ** services/export_service.py *)

(** The world outside the export service: the time stamp of the file name,
    whether a path can be opened for writing, and what reportlab writes for
    a list of messages, when it does not raise. *)
Record ExportWorld : Type := {
  filename_timestamp : string;
  can_open : string -> bool;
  build_pdf : list ChatResponse -> result string
}.

Definition _create_filename (ew : ExportWorld) (conversation_id format : string)
  : string :=
  "chat_export_" +:+ conversation_id +:+ "_" +:+ filename_timestamp ew
  +:+ "." +:+ format.

(** An [int] inside an f-string. *)
Definition str_of_int (z : Z) : string :=
  DecimalString.NilZero.string_of_int (Z.to_int z).

Definition dashes : string := String.string_of_list_ascii (repeat "-"%char 80).

Definition txt_source_line (s : Source) : string :=
  "- " +:+ document_name s +:+ " (Page " +:+ str_of_int (page_number s) +:+ ")"
  +:+ nl.

(** What the body of the loop of [export_to_txt] writes for one message; an
    absent and an empty list of sources are both false. *)
Definition txt_turn (r : ChatResponse) : string :=
  ("User: " +:+ user_message r +:+ nl +:+ nl)
  +:+ ("Assistant: " +:+ response r +:+ nl)
  +:+ match sources r with
      | None | Some [] => ""
      | Some srcs =>
          (nl +:+ "Sources:" +:+ nl)
          +:+ fold_left (fun out s => out +:+ txt_source_line s) srcs ""
      end
  +:+ (nl +:+ dashes +:+ nl +:+ nl).

(** The loop of [export_to_txt] from the text written so far: an element
    that is no [ChatResponse] has no [user_message], and the first write for
    it raises. *)
Fixpoint write_txt (written : string) (messages : list message_item)
  : result unit * string :=
  match messages with
  | [] => (Ok tt, written)
  | Turn r :: rest => write_txt (written +:+ txt_turn r) rest
  | PlainItem _ :: _ => (Raise "AttributeError", written)
  end.

(** The export directory and whatever else paths reach: content by path. *)
Definition export_to_txt (ew : ExportWorld) (export_dir : string)
    (messages : list message_item) (conversation_id : string)
    (fs : gmap string string) : result string * gmap string string :=
  let filename := _create_filename ew conversation_id "txt" in
  let filepath := posixpath.join export_dir filename in
  if can_open ew filepath then
    match write_txt "" messages with
    | (Ok _, text) => (Ok filename, <[filepath := text]> fs)
    | (Raise e, text) => (Raise e, <[filepath := text]> fs)
    end
  else (Raise "open", fs).

(** The [ChatResponse] objects of a list in which each element is one. *)
Fixpoint all_turns (messages : list message_item) : option (list ChatResponse) :=
  match messages with
  | [] => Some []
  | Turn r :: rest =>
      match all_turns rest with
      | Some rs => Some (r :: rs)
      | None => None
      end
  | PlainItem _ :: _ => None
  end.

(** [export_to_pdf]: the paragraphs are built from all the messages before
    [doc.build] opens the file. *)
Definition export_to_pdf (ew : ExportWorld) (export_dir : string)
    (messages : list message_item) (conversation_id : string)
    (fs : gmap string string) : result string * gmap string string :=
  let filename := _create_filename ew conversation_id "pdf" in
  let filepath := posixpath.join export_dir filename in
  match all_turns messages with
  | None => (Raise "AttributeError", fs)
  | Some turns =>
      match build_pdf ew turns with
      | Raise e => (Raise e, fs)
      | Ok bytes =>
          if can_open ew filepath then (Ok filename, <[filepath := bytes]> fs)
          else (Raise "open", fs)
      end
  end.

(** The first loop of [export_chat]: a dictionary becomes a [ChatResponse],
    anything else is kept; [None] when a validation raises. *)
Definition format_message (m : message_item) : option message_item :=
  match m with
  | PlainItem (JDict d) => Turn <$> ChatResponse_validate d
  | other => Some other
  end.

Definition export_chat (ew : ExportWorld) (export_dir : string)
    (messages : list message_item) (conversation_id format : string)
    (fs : gmap string string) : result string * gmap string string :=
  match mapM format_message messages with
  | None => (Raise "ValidationError", fs)
  | Some formatted_messages =>
      if String.eqb (Py.lower format) "pdf"
      then export_to_pdf ew export_dir formatted_messages conversation_id fs
      else if String.eqb (Py.lower format) "txt"
      then export_to_txt ew export_dir formatted_messages conversation_id fs
      else (Raise ("Unsupported export format: " +:+ format), fs)
  end.

(** ** The export route of main.py *)

Record ExportRequest : Type := {
  request_conversation_id : string;
  request_format : string
}.

(** [export_chat] of main.py: the 404 for a conversation without messages is
    raised inside the [try] and leaves the route as a 500. *)
Definition export_chat_route (ew : ExportWorld) (export_dir : string)
    (svc : ChatService) (request : ExportRequest) (fs : gmap string string)
  : http_result string * gmap string string :=
  match get_conversation_history svc (request_conversation_id request) with
  | [] => (HTTPError 500, fs)
  | messages =>
      match export_chat ew export_dir messages
              (request_conversation_id request) (request_format request) fs with
      | (Ok filename, fs') => (Returned filename, fs')
      | (Raise _, fs') => (HTTPError 500, fs')
      end
  end.

(** [os.path.exists] on the modelled files. *)
Definition path_exists (fs : gmap string string) (path : string) : bool :=
  bool_decide (is_Some (fs !! path)).

(** ** More sample worlds *)

Definition sample_export_world : ExportWorld :=
  {| filename_timestamp := "20250101_120000";
     can_open := fun _ => true;
     build_pdf := fun _ => Ok "%PDF" |}.

Definition sample_pdf_upload : UploadFile :=
  {| upload_filename := "Report.PDF"; upload_content := "%PDF-1.7" |}.

Definition sample_text_upload : UploadFile :=
  {| upload_filename := "notes.txt"; upload_content := "hello" |}.

(** A file whose name points into a directory of the upload directory. *)
Definition sample_nested_upload : UploadFile :=
  {| upload_filename := "dir/rows.csv"; upload_content := "a,b" |}.

(** ** Invariants of the sessions *)

(** Every session is held under its own id and has two history entries for
    each of its messages. *)
Definition sessions_consistent (svc : ChatService) : Prop :=
  map_Forall (fun key conv =>
                conv_id conv = key /\
                length (history conv) = 2 * length (messages conv))
    (conversations svc).

(** * Properties *)

(** ** Strings and paths *)

Lemma str_app_cons (x : ascii) (a b : string) :
  String x a +:+ b = String x (a +:+ b).
Proof. reflexivity. Qed.

Lemma str_length_app (a b : string) :
  String.length (a +:+ b) = String.length a + String.length b.
Proof.
  induction a as [|c a IH]; [done|].
  rewrite str_app_cons. simpl. by rewrite IH.
Qed.

Lemma str_app_assoc (a b c : string) : (a +:+ b) +:+ c = a +:+ b +:+ c.
Proof.
  induction a as [|x a IH]; [done|]. rewrite !str_app_cons. by f_equal.
Qed.

Lemma endswith_nil (suf : string) :
  Py.endswith "" suf = String.eqb "" suf.
Proof. unfold Py.endswith. apply orb_false_r. Qed.

Lemma endswith_cons (c : ascii) (t suf : string) :
  Py.endswith (String c t) suf =
  String.eqb (String c t) suf || Py.endswith t suf.
Proof. reflexivity. Qed.

Lemma endswith_suffix (s suf : string) :
  Py.endswith s suf = true -> exists p, s = p +:+ suf.
Proof.
  induction s as [|c t IH]; [rewrite endswith_nil|rewrite endswith_cons]; intros H.
  - apply String.eqb_eq in H. subst. by exists "".
  - apply orb_true_iff in H as [H|H].
    + apply String.eqb_eq in H. exists "". by rewrite H.
    + destruct (IH H) as [p ->]. by exists (String c p).
Qed.

Lemma endswith_length (s suf : string) :
  Py.endswith s suf = true -> String.length suf <= String.length s.
Proof.
  intros H. destruct (endswith_suffix _ _ H) as [p ->].
  rewrite str_length_app. lia.
Qed.

(** Of two suffixes of one string the shorter is a suffix of the longer. *)
Lemma endswith_nested (s a b : string) :
  Py.endswith s a = true -> Py.endswith s b = true ->
  String.length b <= String.length a -> Py.endswith a b = true.
Proof.
  induction s as [|c t IH];
    [rewrite !endswith_nil|rewrite !endswith_cons]; intros Ha Hb Hlen.
  - apply String.eqb_eq in Ha. subst a. by rewrite endswith_nil.
  - apply orb_true_iff in Ha as [Ha|Ha].
    + apply String.eqb_eq in Ha. subst a. by rewrite endswith_cons.
    + apply orb_true_iff in Hb as [Hb|Hb].
      * apply String.eqb_eq in Hb. subst b.
        apply endswith_length in Ha. simpl in Hlen. lia.
      * by apply IH.
Qed.

Lemma split_nonempty (sep : ascii) (s : string) : Py.split sep s <> [].
Proof.
  destruct s as [|c t]; simpl; [done|].
  destruct (Ascii.eqb c sep); [done|]. by destruct (Py.split sep t).
Qed.

Lemma split_app_sep (sep : ascii) (a b : string) :
  Py.split sep (a +:+ String sep b) = Py.split sep a ++ Py.split sep b.
Proof.
  induction a as [|c t IH]; [simpl; by rewrite Ascii.eqb_refl|].
  rewrite str_app_cons. simpl.
  - destruct (Ascii.eqb c sep); [by rewrite IH|].
    rewrite IH. destruct (Py.split sep t) as [|h r] eqn:E; [|done].
    by destruct (split_nonempty sep t).
Qed.

Lemma isabs_app (a b : string) : a <> "" -> posixpath.isabs (a +:+ b) = posixpath.isabs a.
Proof.
  destruct a as [|c t]; [done|]. intros _.
  unfold posixpath.isabs. by rewrite str_app_cons.
Qed.

Lemma starts_with_length (pre l : list string) :
  posixpath.starts_with pre l = true -> length pre <= length l.
Proof.
  revert l. induction pre as [|a pre IH]; intros [|b l]; simpl; try lia; try done.
  intros [_ H]%andb_true_iff. apply IH in H. lia.
Qed.

(** Joining [".."] to a directory steps the normalisation once more. *)
Lemma components_join_parent (d : string) :
  d <> "" ->
  posixpath.components (posixpath.join d "..") =
  rev (posixpath.norm_step (posixpath.isabs d)
         (rev (posixpath.components d)) "..").
Proof.
  intros Hd. unfold posixpath.components at 2. rewrite rev_involutive.
  unfold posixpath.join. simpl Py.startswith. cbv iota.
  destruct (String.eqb_spec d ""); [done|]. simpl orb.
  destruct (Py.endswith d "/") eqn:E.
  - destruct (endswith_suffix _ _ E) as [p ->].
    unfold posixpath.components. f_equal.
    rewrite isabs_app by done.
    rewrite str_app_assoc. change ("/" +:+ "..") with (String "/" "..").
    change (p +:+ "/") with (p +:+ String "/" "").
    rewrite !split_app_sep. simpl Py.split.
    by rewrite !fold_left_app.
  - unfold posixpath.components. f_equal.
    rewrite isabs_app by done.
    change (d +:+ "/" +:+ "..") with (d +:+ String "/" "..").
    rewrite split_app_sep. simpl Py.split. by rewrite fold_left_app.
Qed.

(** ** The export path *)

Lemma endswith_refl (s : string) : Py.endswith s s = true.
Proof.
  destruct s; [done|]. by rewrite endswith_cons, String.eqb_refl.
Qed.

Lemma endswith_app (p s : string) : Py.endswith (p +:+ s) s = true.
Proof.
  induction p as [|c p IH]; [apply endswith_refl|].
  rewrite str_app_cons, endswith_cons, IH. apply orb_true_r.
Qed.

Lemma join_parent_isabs (d : string) :
  d <> "" -> posixpath.isabs (posixpath.join d "..") = posixpath.isabs d.
Proof.
  intros Hd. unfold posixpath.join. simpl Py.startswith. cbv iota.
  destruct (String.eqb d "" || Py.endswith d "/"); by rewrite isabs_app.
Qed.

(** C10: [get_export_path] is the plain path join of the export directory
    and the file name: the name ends the returned path character for
    character, the download route tests and serves exactly that path, and a
    file name with a parent-directory segment gives a path that is not
    inside the export directory. *)
Theorem get_export_path_not_contained (export_dir : string)
    (exists_ : string -> bool) :
  posixpath.components export_dir <> [] ->
  last (posixpath.components export_dir) <> Some ".." ->
  (forall filename,
      get_export_path export_dir filename = posixpath.join export_dir filename /\
      Py.endswith (get_export_path export_dir filename) filename = true /\
      download_file export_dir exists_ filename =
        if exists_ (posixpath.join export_dir filename)
        then FileResponse (posixpath.join export_dir filename) filename
        else HTTPException 500) /\
  (exists filename,
      In ".." (Py.split "/" filename) /\
      posixpath.inside export_dir (get_export_path export_dir filename) = false).
Proof.
  intros Hne Hlast. split.
  - intros filename. split; [done|]. split.
    + unfold get_export_path, posixpath.join.
      destruct (Py.startswith filename "/"); [apply endswith_refl|].
      destruct (String.eqb export_dir "" || Py.endswith export_dir "/").
      * apply endswith_app.
      * rewrite <- str_app_assoc. apply endswith_app.
    + unfold download_file, get_export_path.
      by destruct (exists_ (posixpath.join export_dir filename)).
  - exists "..". split; [simpl; by left|].
    assert (Hd : export_dir <> "") by (intros ->; by apply Hne).
    unfold posixpath.inside, get_export_path.
    rewrite join_parent_isabs, components_join_parent by done.
    apply andb_false_iff. right.
    destruct (rev (posixpath.components export_dir)) as [|top below] eqn:E.
    { apply (f_equal (@rev string)) in E. rewrite rev_involutive in E.
      by destruct Hne. }
    apply (f_equal (@rev string)) in E. rewrite rev_involutive in E.
    rewrite E in Hlast |- *. simpl rev in Hlast. rewrite last_snoc in Hlast.
    unfold posixpath.norm_step.
    destruct (String.eqb_spec ".." ""); [done|].
    destruct (String.eqb_spec ".." "."); [done|]. simpl orb. cbv iota.
    rewrite String.eqb_refl.
    destruct (String.eqb_spec top ".."); [by subst|].
    destruct (posixpath.starts_with (rev (top :: below)) (rev below)) eqn:S; [|done].
    apply starts_with_length in S. simpl in S.
    rewrite length_app, !length_rev in S. simpl in S. lia.
Qed.

Lemma get_export_path_not_contained_witness :
  posixpath.inside "/srv/app/exported_chats"
    (get_export_path "/srv/app/exported_chats" "../../../etc/passwd") = false /\
  exists filename,
    In ".." (Py.split "/" filename) /\
    posixpath.inside "/srv/app/exported_chats"
      (get_export_path "/srv/app/exported_chats" filename) = false.
Proof.
  split; [reflexivity|].
  apply (get_export_path_not_contained "/srv/app/exported_chats" (fun _ => true));
    vm_compute; discriminate.
Defined.

(** ** The streaming loop *)

Lemma accumulate_snoc (acc d : string) (ds : list string) :
  accumulate acc (ds ++ [d]) = accumulate acc ds +:+ d.
Proof. unfold accumulate. by rewrite fold_left_app. Qed.

(** The [i]-th event of the loop carries everything accumulated up to and
    including the [i]-th increment that has content. *)
Lemma stream_events_lookup (f : string -> event) (chunks : list AIMessageChunk) :
  forall (acc : string) (i : nat),
    (stream_events f acc chunks).1 !! i =
    (fun _ => f (accumulate acc (take (S i) (omap content chunks))))
      <$> (omap content chunks !! i).
Proof.
  induction chunks as [|chunk rest IH]; intros acc i; [done|].
  simpl. destruct (content chunk) as [delta|]; [|apply IH].
  specialize (IH (acc +:+ delta)).
  destruct (stream_events f (acc +:+ delta) rest) as [evs final].
  destruct i as [|i]; [done|]. simpl in *. apply IH.
Qed.

Lemma stream_events_final (f : string -> event) (chunks : list AIMessageChunk) :
  forall acc : string,
    (stream_events f acc chunks).2 = accumulate acc (omap content chunks).
Proof.
  induction chunks as [|chunk rest IH]; intros acc; [done|].
  simpl. destruct (content chunk) as [delta|]; [|apply IH].
  specialize (IH (acc +:+ delta)).
  by destruct (stream_events f (acc +:+ delta) rest).
Qed.

Lemma stream_events_Forall (P : event -> Prop) (f : string -> event)
    (chunks : list AIMessageChunk) :
  (forall r, P (f r)) ->
  forall acc : string, Forall P (stream_events f acc chunks).1.
Proof.
  intros Hf. induction chunks as [|chunk rest IH]; intros acc; [constructor|].
  simpl. destruct (content chunk) as [delta|]; [|apply IH].
  specialize (IH (acc +:+ delta)).
  destruct (stream_events f (acc +:+ delta) rest). by constructor.
Qed.

(** ** The shape of a chat call *)

Lemma run_resolution_failed (w : World) (message : string)
    (conversation_id : option string) (svc svc1 : ChatService) (e : string) :
  _get_or_create_conversation w conversation_id svc = (Raise e, svc1) ->
  get_streaming_response w message conversation_id svc =
  {| events := [(Failure, error_event [] (uuid4 w (uuid_calls svc1)) message)];
     service := after_uuid4 svc1; prompt := None |}.
Proof. intros H. unfold get_streaming_response. by rewrite H. Qed.

Lemma run_retrieval_failed (w : World) (message : string)
    (conversation_id : option string) (svc svc1 : ChatService)
    (key : string) (conv : conversation) (e : string) :
  _get_or_create_conversation w conversation_id svc = (Ok (key, conv), svc1) ->
  similarity_search w message = Raise e ->
  get_streaming_response w message conversation_id svc =
  {| events := [(Failure, error_event [] (conv_id conv) message)];
     service := svc1; prompt := None |}.
Proof. intros H1 H2. unfold get_streaming_response. by rewrite H1, H2. Qed.

(** Once the session is resolved and the chunks are retrieved, the call
    yields the placeholder, one event per increment with content, and the
    error event when the model breaks off. *)
Lemma run_generation (w : World) (message : string)
    (conversation_id : option string) (svc svc1 : ChatService)
    (key : string) (conv : conversation) (docs : list Document) :
  _get_or_create_conversation w conversation_id svc = (Ok (key, conv), svc1) ->
  similarity_search w message = Ok docs ->
  let srcs := map Source_of docs in
  let cid := conv_id conv in
  let msgs := build_messages (Py.join nl (map page_content docs)) message
                (history conv) in
  let out := astream w msgs in
  let r := get_streaming_response w message conversation_id svc in
  prompt r = Some msgs /\
  events r =
    (Thinking, chat_event srcs cid message thinking_response)
    :: map (pair Streaming)
         (stream_events (chat_event srcs cid message) "" (increments out)).1
    ++ match interrupted out with
       | Some _ => [(Failure, error_event srcs cid message)]
       | None => []
       end /\
  (is_Some (interrupted out) -> service r = svc1).
Proof.
  intros H1 H2 srcs cid msgs out r. subst r.
  unfold get_streaming_response. rewrite H1, H2. fold srcs cid msgs out.
  destruct (stream_events (chat_event srcs cid message) "" (increments out))
    as [streamed full_response].
  destruct (interrupted out) as [e|]; simpl.
  - done.
  - rewrite app_nil_r. split; [done|]. split; [done|]. by intros [? ?].
Qed.

(** ** Session resolution *)

Lemma save_conversations (w : World) (cid : string) (svc : ChatService) :
  conversations (_save_conversation w cid svc) = conversations svc /\
  uuid_calls (_save_conversation w cid svc) = uuid_calls svc /\
  db_directory (_save_conversation w cid svc) = db_directory svc.
Proof.
  unfold _save_conversation.
  destruct (conversations svc !! cid); [|done].
  by destruct (can_write w (cid +:+ ".json")).
Qed.

Lemma save_files (w : World) (cid : string) (svc : ChatService) :
  conversation_files (_save_conversation w cid svc) =
  match conversations svc !! cid with
  | Some conv =>
      if can_write w (cid +:+ ".json")
      then <[cid +:+ ".json" := json_dump conv]> (conversation_files svc)
      else conversation_files svc
  | None => conversation_files svc
  end.
Proof.
  unfold _save_conversation.
  destruct (conversations svc !! cid); [|done].
  by destruct (can_write w (cid +:+ ".json")).
Qed.

(** What creating a session does to the service. *)
Lemma create_conversation_effect (w : World) (new_id : string) (svc : ChatService) :
  (chroma_up w = false /\
   create_conversation w new_id svc = (Raise "Chroma", svc))
  \/
  (chroma_up w = true /\
   exists svc1,
     create_conversation w new_id svc =
       (Ok (new_id, new_conversation svc new_id), svc1) /\
     conversations svc1 =
       <[new_id := new_conversation svc new_id]> (conversations svc) /\
     conversation_files svc1 =
       (if can_write w (new_id +:+ ".json")
        then <[new_id +:+ ".json" := empty_document new_id]> (conversation_files svc)
        else conversation_files svc) /\
     uuid_calls svc1 = uuid_calls svc /\
     db_directory svc1 = db_directory svc).
Proof.
  unfold create_conversation. destruct (chroma_up w); [right|left; done].
  split; [done|]. eexists. split; [reflexivity|].
  set (svc' := with_conversations _ svc).
  destruct (save_conversations w new_id svc') as (-> & -> & ->).
  rewrite save_files. subst svc'. simpl.
  rewrite lookup_insert_eq. done.
Qed.

(** Session resolution leaves the stored sessions and files alone, or adds
    one session without a turn (and possibly its file). *)
Lemma get_or_create_effect (w : World) (conversation_id : option string)
    (svc svc1 : ChatService) (r : result (string * conversation)) :
  _get_or_create_conversation w conversation_id svc = (r, svc1) ->
  (conversations svc1 = conversations svc \/
   exists new_id,
     conversations svc1 =
       <[new_id := new_conversation svc new_id]> (conversations svc)) /\
  (conversation_files svc1 = conversation_files svc \/
   exists new_id,
     conversation_files svc1 =
       <[new_id +:+ ".json" := empty_document new_id]> (conversation_files svc)).
Proof.
  unfold _get_or_create_conversation.
  assert (Hcreate : forall new_id svc0,
    conversations svc0 = conversations svc ->
    conversation_files svc0 = conversation_files svc ->
    db_directory svc0 = db_directory svc ->
    create_conversation w new_id svc0 = (r, svc1) ->
    (conversations svc1 = conversations svc \/
     exists new_id,
       conversations svc1 =
         <[new_id := new_conversation svc new_id]> (conversations svc)) /\
    (conversation_files svc1 = conversation_files svc \/
     exists new_id,
       conversation_files svc1 =
         <[new_id +:+ ".json" := empty_document new_id]> (conversation_files svc))).
  { intros new_id svc0 Hc Hf Hd H.
    destruct (create_conversation_effect w new_id svc0)
      as [[_ E]|[_ (svc2 & E & Ec & Ef & _ & _)]];
      rewrite E in H; injection H as <- <-.
    - rewrite Hc, Hf. by split; left.
    - split.
      + right. exists new_id. rewrite Ec, Hc.
        unfold new_conversation. by rewrite Hd.
      + rewrite Ef, Hf. destruct (can_write w (new_id +:+ ".json")).
        * right. by exists new_id.
        * by left. }
  destruct (supplied conversation_id) as [c|].
  - destruct (conversations svc !! c) as [conv|] eqn:E.
    + intros [= <- <-]. by split; left.
    + by apply Hcreate.
  - by apply Hcreate.
Qed.

(** ** The error event *)

(** C3: when session resolution, retrieval or generation fails, the call
    ends with one error event, the only one it yields; the event carries the
    fixed apology, the sources computed before the failure (none when the
    failure came first), the id of the conversation (a new uuid when the
    session could not be resolved) and the caller's message. The sessions
    and files are as session resolution left them: no turn is appended and
    none is written. *)
Theorem chat_failure_single_error_event (w : World) (message : string)
    (conversation_id : option string) (svc svc1 : ChatService)
    (srcs : list Source) (cid : string) :
  chat_failure w message conversation_id svc srcs cid svc1 ->
  let r := get_streaming_response w message conversation_id svc in
  (exists before,
      events r =
        before ++ [(Failure, {| ev_response := apology; ev_sources := srcs;
                                ev_conversation_id := cid;
                                ev_user_message := message |})] /\
      Forall (fun pe => pe.1 <> Failure) before) /\
  conversations (service r) = conversations svc1 /\
  conversation_files (service r) = conversation_files svc1 /\
  (conversations svc1 = conversations svc \/
   exists new_id,
     conversations svc1 =
       <[new_id := new_conversation svc new_id]> (conversations svc)) /\
  (conversation_files svc1 = conversation_files svc \/
   exists new_id,
     conversation_files svc1 =
       <[new_id +:+ ".json" := empty_document new_id]> (conversation_files svc)).
Proof.
  intros Hfail r. subst r.
  destruct Hfail as [e svc1 H|key conv svc1 e H Hs|key conv svc1 docs e H Hs Hi].
  - rewrite (run_resolution_failed _ _ _ _ _ _ H). simpl.
    split; [by exists []|].
    split; [done|]. split; [done|]. exact (get_or_create_effect _ _ _ _ _ H).
  - rewrite (run_retrieval_failed _ _ _ _ _ _ _ _ H Hs). simpl.
    split; [by exists []|].
    split; [done|]. split; [done|]. exact (get_or_create_effect _ _ _ _ _ H).
  - destruct (run_generation _ _ _ _ _ _ _ _ H Hs) as (_ & Hev & Hsvc).
    rewrite Hi in Hev. rewrite Hsvc by (rewrite Hi; eauto).
    split.
    + eexists. split; [rewrite Hev, app_comm_cons; reflexivity|].
      constructor; [done|]. apply Forall_map, Forall_true. done.
    + split; [done|]. split; [done|]. exact (get_or_create_effect _ _ _ _ _ H).
Qed.

Lemma chat_failure_single_error_event_witness :
  chat_failure failing_world "hi" None fresh_service
    [Source_of sample_chunk] (uuid4 failing_world 0)
    (create_conversation failing_world (uuid4 failing_world 0)
       (after_uuid4 fresh_service)).2 /\
  exists before,
    events (get_streaming_response failing_world "hi" None fresh_service) =
      before ++ [(Failure, {| ev_response := apology;
                              ev_sources := [Source_of sample_chunk];
                              ev_conversation_id := uuid4 failing_world 0;
                              ev_user_message := "hi" |})] /\
    Forall (fun pe => pe.1 <> Failure) before.
Proof.
  assert (H : chat_failure failing_world "hi" None fresh_service
    [Source_of sample_chunk] (uuid4 failing_world 0)
    (create_conversation failing_world (uuid4 failing_world 0)
       (after_uuid4 fresh_service)).2).
  { apply (generation_failed failing_world "hi" None fresh_service
             (uuid4 failing_world 0)
             (new_conversation fresh_service (uuid4 failing_world 0))
             _ [sample_chunk] "connection lost"); reflexivity. }
  split; [exact H|].
  exact (proj1 (chat_failure_single_error_event _ _ _ _ _ _ _ H)).
Defined.

(** ** The events of a call *)

Lemma streaming_responses_generation (head : event) (streamed : list event)
    (tail : list (phase * event)) (svc : ChatService)
    (p : option (list history_item)) :
  Forall (fun pe => pe.1 = Failure) tail ->
  streaming_responses
    {| events := (Thinking, head) :: map (pair Streaming) streamed ++ tail;
       service := svc; prompt := p |}
  = map ev_response streamed.
Proof.
  intros Htail. unfold streaming_responses. simpl.
  rewrite omap_app.
  replace (omap _ tail) with (@nil string).
  2:{ induction Htail as [|[ph e] tl Hph _ IH]; [done|].
      simpl in *. subst ph. simpl. exact IH. }
  rewrite app_nil_r. induction streamed as [|e l IH]; [done|].
  simpl. by f_equal.
Qed.

(** The streaming events of any call, read off the increments. *)
Lemma streaming_responses_lookup (w : World) (message : string)
    (conversation_id : option string) (svc : ChatService) (i : nat) (a : string) :
  let r := get_streaming_response w message conversation_id svc in
  streaming_responses r !! i = Some a ->
  exists msgs,
    prompt r = Some msgs /\
    is_Some (deltas (astream w msgs) !! i) /\
    a = accumulate "" (take (S i) (deltas (astream w msgs))).
Proof.
  intros r. subst r.
  destruct (_get_or_create_conversation w conversation_id svc)
    as [[[key conv]|e] svc1] eqn:H.
  2:{ rewrite (run_resolution_failed _ _ _ _ _ _ H). by destruct i. }
  destruct (similarity_search w message) as [docs|e] eqn:Hs.
  2:{ rewrite (run_retrieval_failed _ _ _ _ _ _ _ _ H Hs). by destruct i. }
  destruct (run_generation _ _ _ _ _ _ _ _ H Hs) as (Hp & Hev & _).
  destruct (get_streaming_response w message conversation_id svc)
    as [evs svc' p]. simpl in Hp, Hev. subst evs p.
  rewrite streaming_responses_generation.
  2:{ destruct (interrupted _); repeat constructor. }
  rewrite list_lookup_fmap, stream_events_lookup. unfold deltas.
  set (ds := omap content _). intros Ha.
  eexists. split; [reflexivity|]. fold ds.
  destruct (ds !! i) as [d|]; [|done].
  simpl in Ha. injection Ha as <-. split; [by eexists|done].
Qed.

(** C4: of two consecutive streaming events the later has a [response] that
    extends the earlier one's: each carries the whole text accumulated so
    far, the later one with one more increment. *)
Theorem streaming_responses_grow (w : World) (message : string)
    (conversation_id : option string) (svc : ChatService)
    (i : nat) (a b : string) :
  let r := get_streaming_response w message conversation_id svc in
  streaming_responses r !! i = Some a ->
  streaming_responses r !! S i = Some b ->
  (exists delta, b = a +:+ delta) /\
  (exists msgs,
      prompt r = Some msgs /\
      a = accumulate "" (take (S i) (deltas (astream w msgs))) /\
      b = accumulate "" (take (S (S i)) (deltas (astream w msgs)))).
Proof.
  intros r Ha Hb.
  destruct (streaming_responses_lookup _ _ _ _ _ _ Ha) as (msgs & Hp & _ & ->).
  destruct (streaming_responses_lookup _ _ _ _ _ _ Hb) as (msgs' & Hp' & [d Hd] & ->).
  fold r in Hp, Hp'. rewrite Hp in Hp'. injection Hp' as <-.
  rewrite (take_S_r _ _ _ Hd), accumulate_snoc.
  split; [by exists d|]. exists msgs. by rewrite (take_S_r _ (S i) _ Hd), accumulate_snoc.
Qed.

Lemma streaming_responses_grow_witness :
  streaming_responses
    (get_streaming_response sample_world "hi" None fresh_service) !! 0
    = Some "Hel" /\
  streaming_responses
    (get_streaming_response sample_world "hi" None fresh_service) !! 1
    = Some "Hello" /\
  exists delta, "Hello" = "Hel" +:+ delta.
Proof.
  split; [reflexivity|]. split; [reflexivity|].
  apply (streaming_responses_grow sample_world "hi" None fresh_service 0
           "Hel" "Hello"); reflexivity.
Defined.

(** C9: all the events of one call carry the same conversation id and the
    caller's message, whichever [yield] they come from; a call yields at
    least one event. *)
Theorem events_share_conversation_and_message (w : World) (message : string)
    (conversation_id : option string) (svc : ChatService) :
  let r := get_streaming_response w message conversation_id svc in
  events r <> [] /\
  exists cid,
    Forall (fun pe => ev_conversation_id pe.2 = cid /\
                      ev_user_message pe.2 = message) (events r).
Proof.
  intros r. subst r.
  destruct (_get_or_create_conversation w conversation_id svc)
    as [[[key conv]|e] svc1] eqn:H.
  2:{ rewrite (run_resolution_failed _ _ _ _ _ _ H). simpl.
      split; [done|]. eexists. by repeat constructor. }
  destruct (similarity_search w message) as [docs|e] eqn:Hs.
  2:{ rewrite (run_retrieval_failed _ _ _ _ _ _ _ _ H Hs). simpl.
      split; [done|]. eexists. by repeat constructor. }
  destruct (run_generation _ _ _ _ _ _ _ _ H Hs) as (_ & -> & _).
  split; [done|]. exists (conv_id conv).
  constructor; [done|]. apply Forall_app. split.
  - apply Forall_map. by apply stream_events_Forall.
  - destruct (interrupted _); by repeat constructor.
Qed.

(** ** The prompt *)

Lemma last_n_suffix {A} (n : nat) (l : list A) :
  l = take (length l - n) l ++ Py.last_n n l /\
  length (Py.last_n n l) = Nat.min n (length l).
Proof.
  unfold Py.last_n. rewrite take_drop, length_drop. split; [done|lia].
Qed.

(** C5: the model is called exactly when the session is resolved and the
    chunks are retrieved, and the message list it is given is the system
    instruction, one user message made of the retrieved context and the
    query, and then the last four entries of the session's history (all of
    them when there are fewer), in their order. *)
Theorem prompt_has_last_four_entries (w : World) (message : string)
    (conversation_id : option string) (svc : ChatService)
    (msgs : list history_item) :
  prompt (get_streaming_response w message conversation_id svc) = Some msgs <->
  exists key conv svc1 docs older recent,
    _get_or_create_conversation w conversation_id svc = (Ok (key, conv), svc1) /\
    similarity_search w message = Ok docs /\
    history conv = older ++ recent /\
    length recent = Nat.min 4 (length (history conv)) /\
    msgs =
      [Message system_message;
       Message (HumanMessage
                  ("Context: " +:+ Py.join nl (map page_content docs) +:+ nl +:+ nl
                   +:+ "Question: " +:+ message))]
      ++ recent.
Proof.
  split.
  - destruct (_get_or_create_conversation w conversation_id svc)
      as [[[key conv]|e] svc1] eqn:H.
    2:{ by rewrite (run_resolution_failed _ _ _ _ _ _ H). }
    destruct (similarity_search w message) as [docs|e] eqn:Hs.
    2:{ by rewrite (run_retrieval_failed _ _ _ _ _ _ _ _ H Hs). }
    destruct (run_generation _ _ _ _ _ _ _ _ H Hs) as (-> & _ & _).
    intros [= <-].
    exists key, conv, svc1, docs,
      (take (length (history conv) - 4) (history conv)),
      (Py.last_n 4 (history conv)).
    destruct (last_n_suffix 4 (history conv)) as [Hsplit Hlen].
    repeat split; try done.
    unfold build_messages. by destruct (history conv).
  - intros (key & conv & svc1 & docs & older & recent & H & Hs & Hh & Hlen & ->).
    destruct (run_generation _ _ _ _ _ _ _ _ H Hs) as (-> & _ & _).
    f_equal. unfold build_messages. do 2 f_equal.
    assert (Hlast : Py.last_n 4 (history conv) = recent).
    { unfold Py.last_n. rewrite Hh in Hlen |- *. rewrite length_app in Hlen |- *.
      replace (length older + length recent - 4) with (length older) by lia.
      apply drop_app_length. }
    rewrite <- Hlast. by destruct (history conv).
Qed.

Lemma prompt_has_last_four_entries_witness :
  exists msgs,
    prompt (get_streaming_response sample_world "again" (Some (uuid4 sample_world 0))
              service_after_turn) = Some msgs /\
    exists key conv svc1 docs older recent,
      _get_or_create_conversation sample_world (Some (uuid4 sample_world 0))
        service_after_turn = (Ok (key, conv), svc1) /\
      similarity_search sample_world "again" = Ok docs /\
      history conv = older ++ recent /\
      length recent = Nat.min 4 (length (history conv)) /\
      msgs =
        [Message system_message;
         Message (HumanMessage
                    ("Context: " +:+ Py.join nl (map page_content docs) +:+ nl +:+ nl
                     +:+ "Question: " +:+ "again"))]
        ++ recent.
Proof.
  eexists. split; [reflexivity|].
  apply (proj1 (prompt_has_last_four_entries sample_world "again"
                  (Some (uuid4 sample_world 0)) service_after_turn _)).
  reflexivity.
Defined.

(** ** Sources *)

Lemma take_is_prefix (n : nat) (s : string) : Py.startswith s (Py.take n s) = true.
Proof.
  revert n. induction s as [|c s IH]; intros [|n]; try done.
  simpl. by rewrite Ascii.eqb_refl, IH.
Qed.

Lemma take_length (n : nat) (s : string) :
  String.length (Py.take n s) = Nat.min n (String.length s).
Proof.
  revert n. induction s as [|c s IH]; intros [|n]; try done.
  simpl. by rewrite IH.
Qed.

(** C8, as the code has it: every event of a call whose retrieval returned
    [docs] carries one source per chunk, in order. A source takes the
    document name and the page number from the chunk's stored metadata
    (["Unknown"] and 1 when a key is missing); its snippet is the first 200
    characters of the chunk's text, the whole text when it is shorter,
    followed by three dots. *)
Theorem sources_follow_retrieved_chunks (w : World) (message : string)
    (conversation_id : option string) (svc svc1 : ChatService)
    (key : string) (conv : conversation) (docs : list Document) :
  _get_or_create_conversation w conversation_id svc = (Ok (key, conv), svc1) ->
  similarity_search w message = Ok docs ->
  Forall (fun pe => ev_sources pe.2 = map Source_of docs)
    (events (get_streaming_response w message conversation_id svc)) /\
  Forall (fun doc =>
            content_snippet (Source_of doc) =
              Py.take 200 (page_content doc) +:+ "..." /\
            Py.startswith (page_content doc) (Py.take 200 (page_content doc)) = true /\
            String.length (Py.take 200 (page_content doc)) =
              Nat.min 200 (String.length (page_content doc)) /\
            document_name (Source_of doc) =
              default "Unknown" (md_document_name (metadata doc)) /\
            page_number (Source_of doc) =
              default 1%Z (md_page_number (metadata doc)))
    docs.
Proof.
  intros H Hs. split.
  - destruct (run_generation _ _ _ _ _ _ _ _ H Hs) as (_ & -> & _).
    constructor; [done|]. apply Forall_app. split.
    + apply Forall_map. by apply stream_events_Forall.
    + destruct (interrupted _); by repeat constructor.
  - apply Forall_forall. intros doc _.
    split; [done|]. split; [apply take_is_prefix|].
    split; [apply take_length|]. done.
Qed.

Lemma sources_follow_retrieved_chunks_witness :
  _get_or_create_conversation sample_world None fresh_service =
    (Ok (uuid4 sample_world 0, new_conversation fresh_service (uuid4 sample_world 0)),
     (create_conversation sample_world (uuid4 sample_world 0)
        (after_uuid4 fresh_service)).2) /\
  similarity_search sample_world "hi" = Ok [sample_chunk] /\
  Forall (fun pe => ev_sources pe.2 = map Source_of [sample_chunk])
    (events (get_streaming_response sample_world "hi" None fresh_service)).
Proof.
  split; [reflexivity|]. split; [reflexivity|].
  refine (proj1 (sources_follow_retrieved_chunks sample_world "hi" None
                   fresh_service _ _ _ [sample_chunk] _ _)); reflexivity.
Defined.

(** The claim as the specification words it fails: the snippet of a chunk
    whose text is ["abc"] is ["abc..."], which is no prefix of the text. *)
Lemma snippet_is_not_a_prefix :
  similarity_search sample_world "hi" = Ok [sample_chunk] /\
  page_content sample_chunk = "abc" /\
  Forall (fun pe =>
            exists s,
              ev_sources pe.2 = [s] /\
              content_snippet s = "abc..." /\
              Py.startswith (page_content sample_chunk) (content_snippet s) = false)
    (events (get_streaming_response sample_world "hi" None fresh_service)).
Proof.
  split; [reflexivity|]. split; [reflexivity|].
  vm_compute. repeat constructor; eexists; repeat split.
Qed.

(** ** Get or create *)

Lemma supplied_nonempty (cid : string) : cid <> "" -> supplied (Some cid) = Some cid.
Proof. intros H. unfold supplied. by destruct (String.eqb_spec cid ""). Qed.

Lemma get_or_create_known (w : World) (svc : ChatService) (cid : string)
    (conv : conversation) :
  cid <> "" -> conversations svc !! cid = Some conv ->
  _get_or_create_conversation w (Some cid) svc = (Ok (cid, conv), svc).
Proof.
  intros Hne Hk. unfold _get_or_create_conversation.
  by rewrite supplied_nonempty, Hk.
Qed.

Lemma get_or_create_fresh (w : World) (svc : ChatService) :
  chroma_up w = true ->
  exists svc1,
    _get_or_create_conversation w None svc =
      (Ok (uuid4 w (uuid_calls svc),
           new_conversation svc (uuid4 w (uuid_calls svc))), svc1) /\
    uuid_calls svc1 = S (uuid_calls svc) /\
    db_directory svc1 = db_directory svc.
Proof.
  intros Hup. unfold _get_or_create_conversation. simpl.
  destruct (create_conversation_effect w (uuid4 w (uuid_calls svc)) (after_uuid4 svc))
    as [[E _]|[_ (svc1 & E & _ & _ & Hn & Hd)]]; [congruence|].
  exists svc1. by rewrite E.
Qed.

(** C6, as the code has it. An empty string counts as no id at all.
    (1) For a known, non-empty id, two calls in a row return the stored
    session and leave the service as it was. (2) Two calls without an id
    return sessions under the two uuids drawn, which are distinct as soon as
    the two draws are. (3) An unknown, non-empty id gives a new session
    without a turn under that very id, stored in memory and, when its file
    can be written, on disk. *)
Theorem get_or_create_conversation_cases (w : World) (svc : ChatService) :
  (forall cid conv,
      cid <> "" -> conversations svc !! cid = Some conv ->
      _get_or_create_conversation w (Some cid) svc = (Ok (cid, conv), svc) /\
      _get_or_create_conversation w (Some cid)
        (_get_or_create_conversation w (Some cid) svc).2 = (Ok (cid, conv), svc))
  /\
  (chroma_up w = true ->
   uuid4 w (uuid_calls svc) <> uuid4 w (S (uuid_calls svc)) ->
   exists c1 s1 c2 s2,
     _get_or_create_conversation w None svc =
       (Ok (uuid4 w (uuid_calls svc), c1), s1) /\
     _get_or_create_conversation w None s1 =
       (Ok (uuid4 w (S (uuid_calls svc)), c2), s2) /\
     conv_id c1 = uuid4 w (uuid_calls svc) /\
     conv_id c2 = uuid4 w (S (uuid_calls svc)) /\
     conv_id c1 <> conv_id c2)
  /\
  (forall cid,
      cid <> "" -> conversations svc !! cid = None -> chroma_up w = true ->
      exists s1,
        _get_or_create_conversation w (Some cid) svc =
          (Ok (cid, new_conversation svc cid), s1) /\
        conv_id (new_conversation svc cid) = cid /\
        conversations s1 = <[cid := new_conversation svc cid]> (conversations svc) /\
        (can_write w (cid +:+ ".json") = true ->
         conversation_files s1 !! (cid +:+ ".json") = Some (empty_document cid)))
  /\
  _get_or_create_conversation w (Some "") svc =
  _get_or_create_conversation w None svc.
Proof.
  split; [|split; [|split; [|done]]].
  - intros cid conv Hne Hk.
    rewrite (get_or_create_known w svc cid conv Hne Hk).
    split; [done|]. exact (get_or_create_known w svc cid conv Hne Hk).
  - intros Hup Hdiff.
    destruct (get_or_create_fresh w svc Hup) as (s1 & E1 & Hn & Hd).
    destruct (get_or_create_fresh w s1 Hup) as (s2 & E2 & _ & _).
    rewrite Hn in E2.
    exists (new_conversation svc (uuid4 w (uuid_calls svc))), s1,
      (new_conversation s1 (uuid4 w (S (uuid_calls svc)))), s2.
    by repeat split.
  - intros cid Hne Hunk Hup. unfold _get_or_create_conversation.
    rewrite supplied_nonempty, Hunk by done.
    destruct (create_conversation_effect w cid svc)
      as [[E _]|[_ (s1 & E & Hc & Hf & _ & _)]]; [congruence|].
    exists s1. rewrite E. repeat split; try done.
    intros Hw. rewrite Hf, Hw. apply lookup_insert_eq.
Qed.

Lemma get_or_create_conversation_cases_witness :
  (* a known id, asked for twice *)
  (exists conv,
      conversations service_after_turn !! uuid4 sample_world 0 = Some conv /\
      _get_or_create_conversation sample_world (Some (uuid4 sample_world 0))
        (_get_or_create_conversation sample_world (Some (uuid4 sample_world 0))
           service_after_turn).2
      = (Ok (uuid4 sample_world 0, conv), service_after_turn)) /\
  (* no id, twice *)
  (exists c1 s1 c2 s2,
      _get_or_create_conversation sample_world None service_after_turn =
        (Ok (uuid4 sample_world 1, c1), s1) /\
      _get_or_create_conversation sample_world None s1 =
        (Ok (uuid4 sample_world 2, c2), s2) /\
      conv_id c1 = uuid4 sample_world 1 /\
      conv_id c2 = uuid4 sample_world 2 /\
      conv_id c1 <> conv_id c2) /\
  (* an unknown id *)
  (exists s1,
      _get_or_create_conversation sample_world (Some "mine") service_after_turn =
        (Ok ("mine", new_conversation service_after_turn "mine"), s1) /\
      conversation_files s1 !! "mine.json" = Some (empty_document "mine")).
Proof.
  pose proof (get_or_create_conversation_cases sample_world service_after_turn)
    as (Hknown & Hfresh & Hnew & _).
  split; [|split].
  - eexists. split; [reflexivity|].
    refine (proj2 (Hknown (uuid4 sample_world 0) _ _ _)); [discriminate|reflexivity].
  - apply Hfresh; [reflexivity|discriminate].
  - destruct (Hnew "mine") as (s1 & E & _ & _ & Hf);
      [discriminate|reflexivity|reflexivity|].
    exists s1. split; [exact E|]. apply Hf. reflexivity.
Defined.

(** The claim as the specification words it fails for the empty string: it
    is a supplied id no session is known under, and the session created
    carries a uuid instead. *)
Lemma empty_supplied_id_is_replaced :
  conversations fresh_service !! "" = None /\
  exists conv s1,
    _get_or_create_conversation sample_world (Some "") fresh_service =
      (Ok (uuid4 sample_world 0, conv), s1) /\
    conv_id conv = "uuid-" /\
    conv_id conv <> "" /\
    conversations s1 !! "" = None.
Proof.
  split; [reflexivity|]. do 2 eexists.
  split; [reflexivity|]. split; [reflexivity|]. split; [discriminate|].
  reflexivity.
Qed.

(** ** Ingest *)

(** A name that ends in [.csv] is handed to the CSV parser: it ends in none
    of the extensions tested before. *)
Lemma extract_text_csv (iw : IngestWorld) (file : UploadFile) :
  Py.endswith (Py.lower (upload_filename file)) ".csv" = true ->
  extract_text iw file = _process_csv iw (upload_content file).
Proof.
  intros Hcsv. unfold extract_text.
  set (name := Py.lower (upload_filename file)) in *.
  destruct (Py.endswith name ".pdf") eqn:Hpdf.
  { by pose proof (endswith_nested name ".csv" ".pdf" Hcsv Hpdf (le_n _)). }
  destruct (Py.endswith name ".docx") eqn:Hdocx.
  { by pose proof (endswith_nested name ".docx" ".csv" Hdocx Hcsv (le_S _ _ (le_n _))). }
  destruct (Py.endswith name ".json") eqn:Hjson.
  { by pose proof (endswith_nested name ".json" ".csv" Hjson Hcsv (le_S _ _ (le_n _))). }
  by rewrite Hcsv.
Qed.

Lemma pydict_lookup_insert_eq (d : pydict) (k : string) (v : DocumentInfo) :
  <[k := v]> d !! k = Some v.
Proof.
  destruct d as [l]. unfold lookup, insert, pydict_lookup, pydict_insert. simpl.
  induction l as [|[k' v'] l IH]; simpl.
  - by rewrite String.eqb_refl.
  - destruct (String.eqb_spec k' k) as [->|Hne]; simpl.
    + by rewrite String.eqb_refl.
    + by destruct (String.eqb_spec k' k).
Qed.

Lemma pydict_lookup_insert_ne (d : pydict) (k k' : string) (v : DocumentInfo) :
  k <> k' -> <[k := v]> d !! k' = d !! k'.
Proof.
  intros Hne. destruct d as [l].
  unfold lookup, insert, pydict_lookup, pydict_insert. simpl.
  induction l as [|[k0 v0] l IH]; simpl.
  - by destruct (String.eqb_spec k k').
  - destruct (String.eqb_spec k0 k) as [->|Hk]; simpl.
    + by destruct (String.eqb_spec k k').
    + by rewrite IH.
Qed.

Lemma pydict_alter_insert (f : DocumentInfo -> DocumentInfo) (d : pydict)
    (k : string) (v : DocumentInfo) :
  alter f k (<[k := v]> d) = <[k := f v]> d.
Proof.
  destruct d as [l]. unfold alter, insert, pydict_alter, pydict_insert. simpl.
  f_equal. induction l as [|[k' v'] l IH]; simpl.
  - by rewrite String.eqb_refl.
  - destruct (String.eqb_spec k' k) as [->|Hne]; simpl.
    + by rewrite String.eqb_refl.
    + destruct (String.eqb_spec k' k); [done|]. by rewrite IH.
Qed.

(** A new key goes to the end of the dictionary. *)
Lemma pydict_insert_new (d : pydict) (k : string) (v : DocumentInfo) :
  d !! k = None -> items (<[k := v]> d) = items d ++ [(k, v)].
Proof.
  destruct d as [l]. unfold lookup, insert, pydict_lookup, pydict_insert. simpl.
  induction l as [|[k' v'] l IH]; simpl; [done|].
  destruct (String.eqb_spec k' k); [done|]. intros H. by rewrite IH.
Qed.

Lemma pydict_lookup_listed (d : pydict) (k : string) (v : DocumentInfo) :
  d !! k = Some v -> v ∈ snd <$> items d.
Proof.
  destruct d as [l]. unfold lookup, pydict_lookup. simpl.
  induction l as [|[k' v'] l IH]; simpl; [done|].
  destruct (String.eqb_spec k' k).
  - intros [= ->]. apply list_elem_of_here.
  - intros H. apply list_elem_of_further. by apply IH.
Qed.

(** The catalog after an ingest whose upload was written and whose text
    extraction worked. *)
Lemma process_document_catalog (iw : IngestWorld) (file : UploadFile)
    (dp : DocumentProcessor) (text : string) (pages : Z) :
  write_upload iw (new_doc_id iw +:+ "_" +:+ upload_filename file) = None ->
  extract_text iw file = Ok (text, pages) ->
  let out := process_document iw file dp in
  let stored := add_texts iw (split_text iw text)
                  (metadata_list (upload_filename file) (new_doc_id iw)
                     (length (split_text iw text))) in
  let info :=
    {| info_id := new_doc_id iw; filename := upload_filename file;
       document_type := Py.last_part (Py.split "." (upload_filename file));
       upload_date := now iw; total_pages := Some pages;
       status := "processed";
       embedding_status := match stored with
                           | None => "completed"
                           | Some _ => "failed"
                           end;
       error := None |} in
  out.1 = match stored with
          | None => Ok info
          | Some e => Raise ("Failed to create embeddings: " +:+ e)
          end /\
  dp_metadata out.2 = <[new_doc_id iw := info]> (dp_metadata dp) /\
  dp_metadata_file out.2 = dp_metadata out.2.
Proof.
  intros Hw Hx out stored info. subst out. unfold process_document.
  rewrite Hw, Hx. fold stored. subst info.
  destruct stored as [e|]; simpl; (split; [done|]); (split; [|done]);
    apply pydict_alter_insert.
Qed.

(** C7: a file whose name ends in [.csv], which is written to the upload
    directory and in which [read_csv] finds [n] rows, is recorded with
    [max(1, n // 100)] pages, in the catalog and in the [DocumentInfo]
    returned when the ingest succeeds; that is 2 pages for 250 rows and 1
    page for none. *)
Theorem csv_total_pages (iw : IngestWorld) (file : UploadFile)
    (dp : DocumentProcessor) (df : DataFrame) :
  write_upload iw (new_doc_id iw +:+ "_" +:+ upload_filename file) = None ->
  Py.endswith (Py.lower (upload_filename file)) ".csv" = true ->
  read_csv iw (upload_content file) = Ok df ->
  let pages := Z.max 1 (Z.of_nat (df_len df) / 100) in
  let out := process_document iw file dp in
  (exists info,
      dp_metadata out.2 !! new_doc_id iw = Some info /\
      total_pages info = Some pages) /\
  (forall info, out.1 = Ok info -> total_pages info = Some pages) /\
  (df_len df = 250 -> pages = 2%Z) /\
  (df_len df = 0 -> pages = 1%Z).
Proof.
  intros Hw Hcsv Hread pages out.
  assert (Hx : extract_text iw file = Ok (df_to_string df, pages)).
  { rewrite extract_text_csv by done. unfold _process_csv. by rewrite Hread. }
  destruct (process_document_catalog iw file dp _ _ Hw Hx) as (Hres & Hmeta & _).
  fold out in Hres, Hmeta. split; [|split; [|split]].
  - eexists. rewrite Hmeta, pydict_lookup_insert_eq. split; [reflexivity|done].
  - intros info. rewrite Hres. destruct (add_texts _ _ _); [done|].
    by intros [= <-].
  - intros E. subst pages. by rewrite E.
  - intros E. subst pages. by rewrite E.
Qed.

Lemma csv_total_pages_witness :
  write_upload (sample_ingest 250 None) ("doc-1" +:+ "_" +:+ "Rows.CSV") = None /\
  Py.endswith (Py.lower (upload_filename sample_upload)) ".csv" = true /\
  (exists info,
      dp_metadata (process_document (sample_ingest 250 None) sample_upload
                     empty_processor).2 !! "doc-1" = Some info /\
      total_pages info = Some 2%Z) /\
  (exists info,
      dp_metadata (process_document (sample_ingest 0 None) sample_upload
                     empty_processor).2 !! "doc-1" = Some info /\
      total_pages info = Some 1%Z).
Proof.
  split; [reflexivity|]. split; [reflexivity|]. split.
  - exact (proj1 (csv_total_pages (sample_ingest 250 None) sample_upload
                    empty_processor _ eq_refl eq_refl eq_refl)).
  - exact (proj1 (csv_total_pages (sample_ingest 0 None) sample_upload
                    empty_processor _ eq_refl eq_refl eq_refl)).
Defined.

(** C2, as the code has it: when storing the chunks fails after the upload
    was written and the text was extracted, the ingest raises, and the
    catalog, in memory and on disk, keeps the record of the document with
    [status] ["processed"] and [embedding_status] ["failed"]; its [error]
    field is left unset, the text of the failure travels with the exception
    only. No other record is touched. *)
Theorem embedding_failure_keeps_record (iw : IngestWorld) (file : UploadFile)
    (dp : DocumentProcessor) (text : string) (pages : Z) (e : string) :
  write_upload iw (new_doc_id iw +:+ "_" +:+ upload_filename file) = None ->
  extract_text iw file = Ok (text, pages) ->
  add_texts iw (split_text iw text)
    (metadata_list (upload_filename file) (new_doc_id iw)
       (length (split_text iw text))) = Some e ->
  let out := process_document iw file dp in
  out.1 = Raise ("Failed to create embeddings: " +:+ e) /\
  (exists info,
      dp_metadata out.2 !! new_doc_id iw = Some info /\
      dp_metadata_file out.2 !! new_doc_id iw = Some info /\
      info_id info = new_doc_id iw /\
      status info = "processed" /\
      embedding_status info = "failed" /\
      error info = None) /\
  (forall k, k <> new_doc_id iw ->
             dp_metadata out.2 !! k = dp_metadata dp !! k).
Proof.
  intros Hw Hx Hstore out.
  destruct (process_document_catalog iw file dp _ _ Hw Hx) as (Hres & Hmeta & Hfile).
  fold out in Hres, Hmeta, Hfile. rewrite Hstore in Hres, Hmeta.
  split; [done|]. split.
  - eexists. rewrite Hfile, Hmeta, pydict_lookup_insert_eq. by repeat split.
  - intros k Hk. rewrite Hmeta. by apply pydict_lookup_insert_ne.
Qed.

Lemma embedding_failure_keeps_record_witness :
  write_upload (sample_ingest 250 (Some "boom")) ("doc-1" +:+ "_" +:+ "Rows.CSV")
    = None /\
  extract_text (sample_ingest 250 (Some "boom")) sample_upload = Ok ("a b", 2%Z) /\
  (process_document (sample_ingest 250 (Some "boom")) sample_upload
     empty_processor).1 = Raise "Failed to create embeddings: boom".
Proof.
  split; [reflexivity|]. split; [reflexivity|].
  exact (proj1 (embedding_failure_keeps_record (sample_ingest 250 (Some "boom"))
                  sample_upload empty_processor "a b" 2 "boom"
                  eq_refl eq_refl eq_refl)).
Defined.

(** The claim as the specification words it fails on the [error] field:
    after a failed embedding step the record holds no error text. *)
Lemma failed_embedding_leaves_error_unset :
  exists info,
    dp_metadata (process_document (sample_ingest 250 (Some "boom")) sample_upload
                   empty_processor).2 !! "doc-1" = Some info /\
    status info = "processed" /\
    embedding_status info = "failed" /\
    error info = None.
Proof. eexists. split; [reflexivity|]. by repeat split. Qed.

(** ** Persistence *)

Lemma take_app_length (p s : string) : Py.take (String.length p) (p +:+ s) = p.
Proof.
  induction p as [|c p IH]; [by destruct s|].
  rewrite str_app_cons. simpl. by rewrite IH.
Qed.

Lemma drop_last_app (p s : string) : Py.drop_last (String.length s) (p +:+ s) = p.
Proof.
  unfold Py.drop_last. rewrite str_length_app.
  replace (String.length p + String.length s - String.length s)
    with (String.length p) by lia.
  apply take_app_length.
Qed.

Lemma str_app_inj_r (a b s : string) : a +:+ s = b +:+ s -> a = b.
Proof.
  intros H. apply (f_equal (Py.drop_last (String.length s))) in H.
  by rewrite !drop_last_app in H.
Qed.

Lemma has_separator_app (a b : string) :
  has_separator (a +:+ b) = has_separator a || has_separator b.
Proof.
  induction a as [|c a IH]; [done|].
  rewrite str_app_cons. simpl. by rewrite IH, orb_assoc.
Qed.

(** What the loader finds under an id: the content of the file named after
    it, when the body of the [try] goes through. *)
Lemma load_conversations_lookup (w : World) (db : string)
    (files : gmap string file) (cid : string) :
  has_separator cid = false ->
  _load_conversations w db files !! cid =
  files !! (cid +:+ ".json") ≫= load_file w db.
Proof.
  intros Hsep. unfold _load_conversations. revert cid Hsep.
  apply (map_fold_weak_ind
           (fun r m => forall cid, has_separator cid = false ->
              r !! cid = m !! (cid +:+ ".json") ≫= load_file w db)).
  { intros cid _. by rewrite !lookup_empty. }
  intros name f m r Hfresh IH cid Hsep. unfold load_entry.
  destruct (negb (has_separator name) && Py.endswith name ".json") eqn:Hlisted.
  - apply andb_true_iff in Hlisted as [_ Hjson].
    destruct (endswith_suffix _ _ Hjson) as [p ->].
    change 5 with (String.length ".json"). rewrite drop_last_app.
    destruct (decide (cid = p)) as [->|Hne].
    + rewrite lookup_insert_eq. simpl.
      destruct (load_file w db f) as [conv|] eqn:Hload.
      * by rewrite lookup_insert_eq.
      * rewrite IH by done. by rewrite Hfresh.
    + rewrite lookup_insert_ne by (intros E; by apply str_app_inj_r in E).
      destruct (load_file w db f); [rewrite lookup_insert_ne by done|]; by apply IH.
  - rewrite lookup_insert_ne; [by apply IH|].
    intros ->. rewrite has_separator_app, Hsep, endswith_app in Hlisted.
    discriminate.
Qed.

Lemma validate_dumped_sources (l : list Source) :
  Sources_validate (map Source_model_dump l) = Some l.
Proof.
  induction l as [|[n p c] l IH]; [done|].
  simpl. simpl in IH. by rewrite IH.
Qed.

Lemma validate_dumped_response (r : ChatResponse) (d : list (string * json)) :
  ChatResponse_model_dump r = JDict d -> ChatResponse_validate d = Some r.
Proof.
  destruct r as [resp srcs cid msg]. intros [= <-].
  unfold ChatResponse_validate. simpl.
  destruct srcs as [l|], cid as [c|]; simpl; by rewrite ?validate_dumped_sources.
Qed.

Lemma load_dumped_turns (rs : list ChatResponse) :
  mapM load_message (map dump_message_item (map Turn rs)) = Some (map Turn rs).
Proof.
  apply mapM_Some. rewrite map_map. induction rs as [|r rs IH]; constructor; [|done].
  simpl. unfold load_message.
  by rewrite (validate_dumped_response r _ eq_refl).
Qed.

Lemma dump_plain_history (js : list json) :
  mapM dump_history_item (map Plain js) = Some js.
Proof. apply mapM_Some. induction js; by constructor. Qed.

(** A session that holds no message object in its history comes back from
    disk as it was saved. *)
Lemma save_load_plain_session (w : World) (svc : ChatService) (cid : string)
    (conv : conversation) (js : list json) (rs : list ChatResponse) :
  has_separator cid = false ->
  can_write w (cid +:+ ".json") = true ->
  chroma_up w = true ->
  conversations svc !! cid = Some conv ->
  history conv = map Plain js ->
  messages conv = map Turn rs ->
  exists conv',
    _load_conversations w (db_directory svc)
      (conversation_files (_save_conversation w cid svc)) !! cid = Some conv' /\
    conv_id conv' = conv_id conv /\
    history conv' = history conv /\
    messages conv' = messages conv.
Proof.
  intros Hsep Hw Hup Hk Hh Hm.
  rewrite load_conversations_lookup, save_files, Hk, Hw, lookup_insert_eq by done.
  unfold json_dump. rewrite Hh, dump_plain_history. simpl.
  rewrite Hm, load_dumped_turns, Hup. eexists. by repeat split.
Qed.

(** A session with a message object in its history, as every completed turn
    leaves one, is saved as an unfinished document and is not loaded. *)
Lemma save_load_loses_turns (w w' : World) (svc : ChatService) (cid : string)
    (conv : conversation) :
  has_separator cid = false ->
  can_write w (cid +:+ ".json") = true ->
  conversations svc !! cid = Some conv ->
  Exists (fun h => exists m, h = Message m) (history conv) ->
  conversation_files (_save_conversation w cid svc) !! (cid +:+ ".json")
    = Some Unreadable /\
  _load_conversations w' (db_directory svc)
    (conversation_files (_save_conversation w cid svc)) !! cid = None.
Proof.
  intros Hsep Hw Hk Hmsg.
  assert (Hdump : json_dump conv = Unreadable).
  { unfold json_dump. rewrite (mapM_None_2 dump_history_item (history conv)); [done|].
    eapply Exists_impl; [exact Hmsg|]. by intros h [m ->]. }
  rewrite load_conversations_lookup, save_files, Hk, Hw, lookup_insert_eq, Hdump by done.
  done.
Qed.

(** A call that meets no failure appends the two history entries and the
    turn to the session it resolved, and saves the conversation named by
    the session's id. *)
Lemma run_completed (w : World) (message : string)
    (conversation_id : option string) (svc svc1 : ChatService)
    (key : string) (conv : conversation) (docs : list Document) :
  _get_or_create_conversation w conversation_id svc = (Ok (key, conv), svc1) ->
  similarity_search w message = Ok docs ->
  let msgs := build_messages (Py.join nl (map page_content docs)) message
                (history conv) in
  let out := astream w msgs in
  interrupted out = None ->
  let full_response := accumulate "" (deltas out) in
  let conv' :=
    {| conv_id := conv_id conv; vectorstore := vectorstore conv;
       history := history conv ++ [Message (HumanMessage message);
                                   Message (AIMessage full_response)];
       messages := messages conv ++
                   [Turn {| response := full_response;
                            sources := Some (map Source_of docs);
                            conversation_id := Some (conv_id conv);
                            user_message := message |}] |} in
  service (get_streaming_response w message conversation_id svc) =
  _save_conversation w (conv_id conv)
    (with_conversations (<[key := conv']> (conversations svc1)) svc1).
Proof.
  intros H Hs msgs out Hi full_response conv'.
  unfold get_streaming_response. rewrite H, Hs. fold msgs out.
  pose proof (stream_events_final
                (chat_event (map Source_of docs) (conv_id conv) message)
                (increments out) "") as Hfinal.
  destruct (stream_events _ "" (increments out)) as [streamed final].
  simpl in Hfinal. rewrite Hi. simpl. by rewrite Hfinal.
Qed.

(** After a completed turn of a session held under its own id, the file of
    the session cannot be read back. *)
Lemma completed_turn_not_reloadable (w w' : World) (message : string)
    (conversation_id : option string) (svc svc1 : ChatService)
    (conv : conversation) (docs : list Document) :
  _get_or_create_conversation w conversation_id svc = (Ok (conv_id conv, conv), svc1) ->
  similarity_search w message = Ok docs ->
  interrupted
    (astream w (build_messages (Py.join nl (map page_content docs)) message
                  (history conv))) = None ->
  has_separator (conv_id conv) = false ->
  can_write w (conv_id conv +:+ ".json") = true ->
  let after := service (get_streaming_response w message conversation_id svc) in
  conversation_files after !! (conv_id conv +:+ ".json") = Some Unreadable /\
  _load_conversations w' (db_directory after) (conversation_files after)
    !! conv_id conv = None.
Proof.
  intros H Hs Hi Hsep Hw after. subst after.
  rewrite (run_completed _ _ _ _ _ _ _ _ H Hs Hi).
  set (svc2 := with_conversations _ svc1).
  destruct (save_conversations w (conv_id conv) svc2) as (_ & _ & ->).
  eapply (save_load_loses_turns w w' svc2); try done.
  - subst svc2. simpl. apply lookup_insert_eq.
  - simpl. apply Exists_app. right. constructor. by eexists.
Qed.

(** C1 does not hold of the code: the session of a completed chat turn has
    two message objects in its history; saving it leaves an unreadable file
    and loading all conversations then finds no session under its id,
    although the same service saved and reloaded the session while it was
    still empty. *)
Theorem completed_turn_is_lost_on_reload :
  let cid := uuid4 sample_world 0 in
  let saved := _save_conversation sample_world cid service_after_turn in
  conversations service_after_turn !! cid =
    Some {| conv_id := cid;
            vectorstore := {| persist_directory := "/srv/app/vector_db" |};
            history := [Message (HumanMessage "hi"); Message (AIMessage "Hello")];
            messages := [Turn {| response := "Hello";
                                 sources := Some [Source_of sample_chunk];
                                 conversation_id := Some cid;
                                 user_message := "hi" |}] |} /\
  conversation_files saved !! (cid +:+ ".json") = Some Unreadable /\
  _load_conversations sample_world (db_directory saved)
    (conversation_files saved) !! cid = None /\
  _load_conversations sample_world (db_directory fresh_service)
    (conversation_files
       (_get_or_create_conversation sample_world None fresh_service).2) !! cid
  = Some (new_conversation fresh_service cid).
Proof.
  intros cid saved. split; [reflexivity|].
  assert (Hk : conversations service_after_turn !! cid =
               Some (default (new_conversation fresh_service cid)
                       (conversations service_after_turn !! cid)))
    by reflexivity.
  destruct (save_load_loses_turns sample_world sample_world service_after_turn
              cid _ eq_refl eq_refl Hk) as [Hfile Hload].
  { constructor. by eexists. }
  split; [exact Hfile|]. split; [exact Hload|].
  rewrite load_conversations_lookup by reflexivity. reflexivity.
Qed.

(** * Further properties *)

(** ** A completed chat call *)

Lemma get_or_create_ok_cases (w : World) (conversation_id : option string)
    (svc svc1 : ChatService) (key : string) (conv : conversation) :
  _get_or_create_conversation w conversation_id svc = (Ok (key, conv), svc1) ->
  conversations svc1 !! key = Some conv /\
  (conversations svc1 = conversations svc \/
   (conv = new_conversation svc key /\
    conversations svc1 = <[key := conv]> (conversations svc))).
Proof.
  unfold _get_or_create_conversation.
  assert (Hcreate : forall new_id svc0,
    conversations svc0 = conversations svc ->
    db_directory svc0 = db_directory svc ->
    create_conversation w new_id svc0 = (Ok (key, conv), svc1) ->
    conversations svc1 !! key = Some conv /\
    (conversations svc1 = conversations svc \/
     (conv = new_conversation svc key /\
      conversations svc1 = <[key := conv]> (conversations svc)))).
  { intros new_id svc0 Hc Hd H.
    destruct (create_conversation_effect w new_id svc0)
      as [[_ E]|[_ (svc2 & E & Ec & _)]]; rewrite E in H; [done|].
    injection H as <- <- <-. rewrite Ec, Hc.
    assert (Hnew : new_conversation svc0 new_id = new_conversation svc new_id)
      by (unfold new_conversation; by rewrite Hd).
    rewrite Hnew. split; [apply lookup_insert_eq|]. right. by split. }
  destruct (supplied conversation_id) as [c|].
  - destruct (conversations svc !! c) as [conv0|] eqn:E.
    + intros [= <- <- <-]. split; [done|by left].
    + by apply Hcreate.
  - by apply Hcreate.
Qed.

Lemma get_or_create_raise (w : World) (conversation_id : option string)
    (svc svc1 : ChatService) (e : string) :
  _get_or_create_conversation w conversation_id svc = (Raise e, svc1) ->
  conversations svc1 = conversations svc.
Proof.
  unfold _get_or_create_conversation.
  assert (Hcreate : forall new_id svc0,
    conversations svc0 = conversations svc ->
    create_conversation w new_id svc0 = (Raise e, svc1) ->
    conversations svc1 = conversations svc).
  { intros new_id svc0 Hc H.
    destruct (create_conversation_effect w new_id svc0)
      as [[_ E]|[_ (svc2 & E & _)]]; rewrite E in H; [|done].
    by injection H as <- <-. }
  destruct (supplied conversation_id) as [c|].
  - destruct (conversations svc !! c); [done|]. by apply Hcreate.
  - by apply Hcreate.
Qed.

Lemma last_stream_event (f : string -> event) (chunks : list AIMessageChunk) :
  (forall r, ev_response (f r) = r) ->
  forall acc : string,
    default acc (last (map ev_response (stream_events f acc chunks).1)) =
    (stream_events f acc chunks).2.
Proof.
  intros Hf. induction chunks as [|chunk rest IH]; intros acc; [done|].
  simpl. destruct (content chunk) as [delta|]; [|apply IH].
  specialize (IH (acc +:+ delta)).
  destruct (stream_events f (acc +:+ delta) rest) as [evs final].
  cbn [fst snd] in *. rewrite <- IH. cbn [map]. rewrite Hf.
  destruct evs as [|e evs]; [done|].
  cbn [map]. rewrite last_cons_cons.
  destruct (last (ev_response e :: map ev_response evs)) eqn:E; [done|].
  by apply last_None in E.
Qed.

Lemma stream_events_length (f : string -> event) (chunks : list AIMessageChunk) :
  forall acc : string,
    length (stream_events f acc chunks).1 = length (omap content chunks).
Proof.
  induction chunks as [|chunk rest IH]; intros acc; [done|].
  simpl. destruct (content chunk) as [delta|]; [|apply IH].
  specialize (IH (acc +:+ delta)).
  destruct (stream_events f (acc +:+ delta) rest). simpl in *. by rewrite IH.
Qed.

(** The session a completed call leaves under the key it resolved. *)
Lemma completed_call_lookup (w : World) (message : string)
    (conversation_id : option string) (svc svc1 : ChatService)
    (key : string) (conv : conversation) (docs : list Document) :
  _get_or_create_conversation w conversation_id svc = (Ok (key, conv), svc1) ->
  similarity_search w message = Ok docs ->
  let out := astream w (build_messages (Py.join nl (map page_content docs))
                          message (history conv)) in
  interrupted out = None ->
  conversations (service (get_streaming_response w message conversation_id svc))
    !! key =
  Some {| conv_id := conv_id conv; vectorstore := vectorstore conv;
          history := history conv ++
                     [Message (HumanMessage message);
                      Message (AIMessage (accumulate "" (deltas out)))];
          messages := messages conv ++
                      [Turn {| response := accumulate "" (deltas out);
                               sources := Some (map Source_of docs);
                               conversation_id := Some (conv_id conv);
                               user_message := message |}] |}.
Proof.
  intros H Hs out Hi.
  rewrite (run_completed _ _ _ _ _ _ _ _ H Hs Hi).
  set (svc2 := with_conversations _ svc1).
  destruct (save_conversations w (conv_id conv) svc2) as (-> & _ & _).
  subst svc2. simpl. apply lookup_insert_eq.
Qed.

(** X1: a call that resolves its session, retrieves and is not interrupted
    appends the user message and the answer to the history of that session
    and one turn to its messages, in memory; the answer is the text of all
    increments; [get_conversation_history] then returns the old messages
    followed by the new turn, and no other session is touched. *)
Theorem completed_call_appends_one_turn (w : World) (message : string)
    (conversation_id : option string) (svc svc1 : ChatService)
    (key : string) (conv : conversation) (docs : list Document) :
  _get_or_create_conversation w conversation_id svc = (Ok (key, conv), svc1) ->
  similarity_search w message = Ok docs ->
  interrupted
    (astream w (build_messages (Py.join nl (map page_content docs)) message
                  (history conv))) = None ->
  let r := get_streaming_response w message conversation_id svc in
  let answer :=
    accumulate ""
      (deltas (astream w (build_messages (Py.join nl (map page_content docs))
                            message (history conv)))) in
  let turn :=
    Turn {| response := answer; sources := Some (map Source_of docs);
            conversation_id := Some (conv_id conv); user_message := message |} in
  (exists conv',
      conversations (service r) !! key = Some conv' /\
      conv_id conv' = conv_id conv /\
      history conv' =
        history conv ++ [Message (HumanMessage message);
                         Message (AIMessage answer)] /\
      messages conv' = messages conv ++ [turn]) /\
  get_conversation_history (service r) key = messages conv ++ [turn] /\
  (forall k, k <> key ->
             conversations (service r) !! k = conversations svc1 !! k).
Proof.
  intros H Hs Hi r answer turn. subst r.
  rewrite (run_completed _ _ _ _ _ _ _ _ H Hs Hi).
  set (svc2 := with_conversations _ svc1).
  unfold get_conversation_history.
  destruct (save_conversations w (conv_id conv) svc2) as (-> & _ & _).
  subst svc2. simpl. rewrite lookup_insert_eq. split; [|split; [done|]].
  - eexists. split; [reflexivity|]. by repeat split.
  - intros k Hk. by apply lookup_insert_ne.
Qed.

Lemma completed_call_appends_one_turn_witness :
  get_conversation_history
    (service (get_streaming_response sample_world "hi" None fresh_service))
    (uuid4 sample_world 0)
  = [] ++ [Turn {| response := "Hello";
                   sources := Some [Source_of sample_chunk];
                   conversation_id := Some (uuid4 sample_world 0);
                   user_message := "hi" |}].
Proof.
  refine (proj1 (proj2 (completed_call_appends_one_turn sample_world "hi" None
            fresh_service _ (uuid4 sample_world 0)
            (new_conversation fresh_service (uuid4 sample_world 0))
            [sample_chunk] _ _ _))); reflexivity.
Defined.

(** X2: in a completed call there is one streaming event for each increment
    that has content, and the answer stored in the turn is the response of
    the last streaming event, the empty string when there was none. *)
Theorem stored_answer_is_last_streamed (w : World) (message : string)
    (conversation_id : option string) (svc svc1 : ChatService)
    (key : string) (conv : conversation) (docs : list Document) :
  _get_or_create_conversation w conversation_id svc = (Ok (key, conv), svc1) ->
  similarity_search w message = Ok docs ->
  let out := astream w (build_messages (Py.join nl (map page_content docs))
                          message (history conv)) in
  interrupted out = None ->
  let r := get_streaming_response w message conversation_id svc in
  length (streaming_responses r) = length (deltas out) /\
  exists conv',
    conversations (service r) !! key = Some conv' /\
    last (messages conv') =
      Some (Turn {| response := default "" (last (streaming_responses r));
                    sources := Some (map Source_of docs);
                    conversation_id := Some (conv_id conv);
                    user_message := message |}).
Proof.
  intros H Hs out Hi r.
  pose proof (completed_call_lookup _ _ _ _ _ _ _ _ H Hs Hi) as Hk.
  fold out r in Hk.
  assert (Hresp : streaming_responses r =
                  map ev_response
                    (stream_events (chat_event (map Source_of docs) (conv_id conv) message)
                       "" (increments out)).1).
  { destruct (run_generation _ _ _ _ _ _ _ _ H Hs) as (_ & Hev & _).
    fold out r in Hev. destruct r as [evs svc' p]. simpl in Hev. subst evs.
    apply streaming_responses_generation.
    destruct (interrupted out); repeat constructor. }
  split.
  - rewrite Hresp, length_map. apply stream_events_length.
  - eexists. split; [exact Hk|]. cbn [messages].
    rewrite last_snoc, Hresp, last_stream_event by done.
    by rewrite stream_events_final.
Qed.

Lemma stored_answer_is_last_streamed_witness :
  length (streaming_responses
            (get_streaming_response sample_world "hi" None fresh_service)) = 2 /\
  last (streaming_responses
          (get_streaming_response sample_world "hi" None fresh_service))
  = Some "Hello".
Proof.
  split; [|reflexivity].
  refine (proj1 (stored_answer_is_last_streamed sample_world "hi" None
            fresh_service _ (uuid4 sample_world 0)
            (new_conversation fresh_service (uuid4 sample_world 0))
            [sample_chunk] _ _ _)); reflexivity.
Defined.

(** ** From one call to the next *)

Lemma last_n_after_exchange {A} (h : list A) (a b : A) :
  Py.last_n 4 (h ++ [a; b]) = Py.last_n 2 h ++ [a; b].
Proof.
  unfold Py.last_n. rewrite length_app. simpl.
  replace (length h + 2 - 4) with (length h - 2) by lia.
  apply drop_app_le. lia.
Qed.

(** X3: after a completed call on a session held under its own, non-empty
    id, a second call that names this id resolves to the same session
    without creating one, and the message list it gives to the model ends
    with the user message and the answer of the first call. *)
Theorem next_call_sees_previous_exchange (w w2 : World) (message message2 : string)
    (conversation_id : option string) (svc svc1 : ChatService)
    (conv : conversation) (docs docs2 : list Document) :
  _get_or_create_conversation w conversation_id svc = (Ok (conv_id conv, conv), svc1) ->
  conv_id conv <> "" ->
  similarity_search w message = Ok docs ->
  interrupted
    (astream w (build_messages (Py.join nl (map page_content docs)) message
                  (history conv))) = None ->
  similarity_search w2 message2 = Ok docs2 ->
  let r := get_streaming_response w message conversation_id svc in
  let answer :=
    accumulate ""
      (deltas (astream w (build_messages (Py.join nl (map page_content docs))
                            message (history conv)))) in
  let r2 := get_streaming_response w2 message2 (Some (conv_id conv)) (service r) in
  (exists conv',
      _get_or_create_conversation w2 (Some (conv_id conv)) (service r) =
        (Ok (conv_id conv, conv'), service r)) /\
  exists earlier,
    prompt r2 =
      Some (earlier ++ [Message (HumanMessage message);
                        Message (AIMessage answer)]).
Proof.
  intros H Hne Hs Hi Hs2 r answer r2.
  pose proof (completed_call_lookup _ _ _ _ _ _ _ _ H Hs Hi) as Hk.
  fold r answer in Hk.
  pose proof (get_or_create_known w2 (service r) _ _ Hne Hk) as Hknown.
  split; [by eexists|].
  destruct (run_generation _ _ _ _ _ _ _ _ Hknown Hs2) as (Hp & _ & _).
  fold r2 in Hp. rewrite Hp. unfold build_messages. cbn [history].
  destruct (history conv ++ _) as [|x l] eqn:E.
  { by destruct (history conv). }
  rewrite <- E, last_n_after_exchange. eexists.
  by rewrite app_assoc.
Qed.

Lemma next_call_sees_previous_exchange_witness :
  exists earlier,
    prompt (get_streaming_response sample_world "again" (Some (uuid4 sample_world 0))
              (service (get_streaming_response sample_world "hi" None fresh_service)))
    = Some (earlier ++ [Message (HumanMessage "hi"); Message (AIMessage "Hello")]).
Proof.
  refine (proj2 (next_call_sees_previous_exchange sample_world sample_world
            "hi" "again" None fresh_service _
            (new_conversation fresh_service (uuid4 sample_world 0))
            [sample_chunk] [sample_chunk] _ _ _ _ _));
    solve [reflexivity | discriminate].
Defined.

(** ** What every call keeps *)

Lemma get_or_create_consistent (w : World) (conversation_id : option string)
    (svc svc1 : ChatService) (r : result (string * conversation)) :
  _get_or_create_conversation w conversation_id svc = (r, svc1) ->
  sessions_consistent svc -> sessions_consistent svc1.
Proof.
  intros H Hc. unfold sessions_consistent in *. destruct r as [[key conv]|e].
  - destruct (get_or_create_ok_cases _ _ _ _ _ _ H) as [_ [->|[-> ->]]]; [done|].
    by apply map_Forall_insert_2.
  - by rewrite (get_or_create_raise _ _ _ _ _ H).
Qed.

(** X4: if every session is held under its own id and has two history
    entries for each message, the same is true after any chat call, however
    it ends. *)
Theorem chat_call_keeps_sessions_consistent (w : World) (message : string)
    (conversation_id : option string) (svc : ChatService) :
  sessions_consistent svc ->
  sessions_consistent
    (service (get_streaming_response w message conversation_id svc)).
Proof.
  intros Hc.
  destruct (_get_or_create_conversation w conversation_id svc)
    as [[[key conv]|e] svc1] eqn:H.
  2:{ rewrite (run_resolution_failed _ _ _ _ _ _ H).
      exact (get_or_create_consistent _ _ _ _ _ H Hc). }
  pose proof (get_or_create_consistent _ _ _ _ _ H Hc) as Hc1.
  destruct (similarity_search w message) as [docs|e] eqn:Hs.
  2:{ by rewrite (run_retrieval_failed _ _ _ _ _ _ _ _ H Hs). }
  destruct (interrupted
              (astream w (build_messages (Py.join nl (map page_content docs))
                            message (history conv)))) as [e|] eqn:Hi.
  { destruct (run_generation _ _ _ _ _ _ _ _ H Hs) as (_ & _ & ->); [done|].
    rewrite Hi. by eexists. }
  rewrite (run_completed _ _ _ _ _ _ _ _ H Hs Hi).
  unfold sessions_consistent.
  set (svc2 := with_conversations _ svc1).
  destruct (save_conversations w (conv_id conv) svc2) as (-> & _ & _).
  subst svc2. simpl.
  destruct (get_or_create_ok_cases _ _ _ _ _ _ H) as [Hk _].
  destruct (Hc1 key conv Hk) as [Hid Hlen].
  apply map_Forall_insert_2; [|done]. simpl. split; [done|].
  rewrite !length_app, Hlen. simpl. lia.
Qed.

Lemma chat_call_keeps_sessions_consistent_witness :
  sessions_consistent fresh_service /\
  sessions_consistent
    (service (get_streaming_response sample_world "hi" None fresh_service)).
Proof.
  assert (H : sessions_consistent fresh_service) by apply map_Forall_empty.
  split; [exact H|].
  exact (chat_call_keeps_sessions_consistent sample_world "hi" None fresh_service H).
Defined.

(** X5: a chat call, however it ends, leaves every session but at most one
    exactly as it was: the one it resolved or created. No session is
    removed. *)
Theorem chat_call_touches_one_session (w : World) (message : string)
    (conversation_id : option string) (svc : ChatService) :
  let r := get_streaming_response w message conversation_id svc in
  (exists key, forall k, k <> key ->
      conversations (service r) !! k = conversations svc !! k) /\
  dom (conversations svc) ⊆ dom (conversations (service r)).
Proof.
  intros r. subst r.
  assert (Hins : forall key (c : conversation) (m : gmap string conversation),
            (forall k, k <> key -> <[key := c]> m !! k = m !! k) /\
            dom m ⊆ dom (<[key := c]> m)).
  { intros key c m. split; [intros k Hk; by apply lookup_insert_ne|].
    rewrite dom_insert_L. apply union_subseteq_r. }
  destruct (_get_or_create_conversation w conversation_id svc)
    as [[[key conv]|e] svc1] eqn:H.
  2:{ rewrite (run_resolution_failed _ _ _ _ _ _ H). simpl.
      rewrite (get_or_create_raise _ _ _ _ _ H). split; [by exists ""|done]. }
  destruct (get_or_create_ok_cases _ _ _ _ _ _ H) as [Hk Hcases].
  assert (H1 : (forall k, k <> key ->
                  conversations svc1 !! k = conversations svc !! k) /\
               dom (conversations svc) ⊆ dom (conversations svc1)).
  { destruct Hcases as [->|[_ ->]]; [done|apply Hins]. }
  destruct H1 as [Hframe Hdom].
  destruct (similarity_search w message) as [docs|e] eqn:Hs.
  2:{ rewrite (run_retrieval_failed _ _ _ _ _ _ _ _ H Hs). simpl.
      split; [by exists key|done]. }
  destruct (interrupted
              (astream w (build_messages (Py.join nl (map page_content docs))
                            message (history conv)))) as [e|] eqn:Hi.
  { destruct (run_generation _ _ _ _ _ _ _ _ H Hs) as (_ & _ & ->).
    - split; [by exists key|done].
    - rewrite Hi. by eexists. }
  rewrite (run_completed _ _ _ _ _ _ _ _ H Hs Hi).
  set (svc2 := with_conversations _ svc1).
  destruct (save_conversations w (conv_id conv) svc2) as (-> & _ & _).
  subst svc2. simpl. split.
  - exists key. intros k Hne. rewrite lookup_insert_ne by done. by apply Hframe.
  - rewrite dom_insert_L. etrans; [exact Hdom|]. apply union_subseteq_r.
Qed.

(** ** Loading the conversations *)

(** The loader files sessions under names without a separator only. *)
Lemma load_conversations_keys (w : World) (db : string)
    (files : gmap string file) (cid : string) :
  has_separator cid = true -> _load_conversations w db files !! cid = None.
Proof.
  unfold _load_conversations. revert cid.
  apply (map_fold_weak_ind
           (fun r (m : gmap string file) =>
              forall cid, has_separator cid = true -> r !! cid = None)).
  { intros cid _. apply lookup_empty. }
  intros name f m r _ IH cid Hsep. unfold load_entry.
  destruct (negb (has_separator name) && Py.endswith name ".json") eqn:Hlisted;
    [|by apply IH].
  destruct (load_file w db f); [|by apply IH].
  apply andb_true_iff in Hlisted as [Hname Hjson].
  destruct (endswith_suffix _ _ Hjson) as [p ->].
  change 5 with (String.length ".json"). rewrite drop_last_app.
  rewrite has_separator_app in Hname.
  rewrite lookup_insert_ne; [by apply IH|].
  intros <-. destruct (has_separator p); [done|discriminate].
Qed.

(** X6: the session the loader files under an id depends on one file only,
    the one named after the id with [.json] appended: whatever another file
    holds, readable or not, changes nothing for this id; and an id whose
    file is missing or cannot be read has no session. *)
Theorem loader_reads_each_file_alone (w : World) (db : string)
    (files : gmap string file) (cid : string) :
  (forall name f,
      name <> cid +:+ ".json" ->
      _load_conversations w db (<[name := f]> files) !! cid =
      _load_conversations w db files !! cid) /\
  (files !! (cid +:+ ".json") = None ->
   _load_conversations w db files !! cid = None) /\
  (files !! (cid +:+ ".json") = Some Unreadable ->
   _load_conversations w db files !! cid = None).
Proof.
  destruct (has_separator cid) eqn:Hsep.
  - split; [|split]; intros; by rewrite !load_conversations_keys.
  - split; [|split].
    + intros name f Hne. rewrite !load_conversations_lookup by done.
      by rewrite lookup_insert_ne.
    + intros E. rewrite load_conversations_lookup by done. by rewrite E.
    + intros E. rewrite load_conversations_lookup by done. by rewrite E.
Qed.

(** X7: a session created under an unknown id that is not empty and has no
    separator is on disk at once: a service started afterwards on the same
    directory holds it, without history and without messages. *)
Theorem created_session_survives_restart (w w' : World) (svc : ChatService)
    (cid : string) :
  cid <> "" -> has_separator cid = false ->
  conversations svc !! cid = None ->
  chroma_up w = true -> can_write w (cid +:+ ".json") = true ->
  chroma_up w' = true ->
  let svc1 := (_get_or_create_conversation w (Some cid) svc).2 in
  let restarted :=
    ChatService_init w' (db_directory svc) (conversation_files svc1) in
  conversations restarted !! cid = Some (new_conversation svc cid) /\
  get_conversation_history restarted cid = [].
Proof.
  intros Hne Hsep Hunk Hup Hw Hup' svc1 restarted.
  assert (Hfile : conversation_files svc1 !! (cid +:+ ".json")
                  = Some (empty_document cid)).
  { subst svc1. unfold _get_or_create_conversation.
    rewrite supplied_nonempty, Hunk by done.
    destruct (create_conversation_effect w cid svc)
      as [[E _]|[_ (s1 & E & _ & Hf & _)]]; [congruence|].
    rewrite E. simpl. rewrite Hf, Hw. apply lookup_insert_eq. }
  assert (Hload : conversations restarted !! cid = Some (new_conversation svc cid)).
  { subst restarted. simpl.
    rewrite load_conversations_lookup, Hfile by done. simpl. by rewrite Hup'. }
  split; [done|]. unfold get_conversation_history. by rewrite Hload.
Qed.

Lemma created_session_survives_restart_witness :
  conversations
    (ChatService_init sample_world (db_directory fresh_service)
       (conversation_files
          (_get_or_create_conversation sample_world (Some "mine") fresh_service).2))
    !! "mine"
  = Some (new_conversation fresh_service "mine").
Proof.
  refine (proj1 (created_session_survives_restart sample_world sample_world
                   fresh_service "mine" _ _ _ _ _ _));
    solve [reflexivity | discriminate].
Defined.

(** X8: a [ChatResponse] written by [model_dump] is read back by the loader
    as the same object, its sources included, so the messages of a saved
    conversation load in their order and unchanged. *)
Theorem dumped_turns_load_back (rs : list ChatResponse) :
  Forall (fun r => load_message (dump_message_item (Turn r)) = Some (Turn r)) rs /\
  mapM load_message (map dump_message_item (map Turn rs)) = Some (map Turn rs).
Proof.
  split; [|apply load_dumped_turns].
  apply Forall_forall. intros r _. simpl. unfold load_message.
  by rewrite (validate_dumped_response r _ eq_refl).
Qed.

(** X9: a service started on the directory after a completed turn of a
    session held under its own id does not hold that session: the file the
    turn left cannot be read, and the history asked of the new service is
    empty. *)
Theorem restart_forgets_completed_turn (w w' : World) (message : string)
    (conversation_id : option string) (svc svc1 : ChatService)
    (conv : conversation) (docs : list Document) :
  _get_or_create_conversation w conversation_id svc = (Ok (conv_id conv, conv), svc1) ->
  similarity_search w message = Ok docs ->
  interrupted
    (astream w (build_messages (Py.join nl (map page_content docs)) message
                  (history conv))) = None ->
  has_separator (conv_id conv) = false ->
  can_write w (conv_id conv +:+ ".json") = true ->
  let after := service (get_streaming_response w message conversation_id svc) in
  let restarted :=
    ChatService_init w' (db_directory after) (conversation_files after) in
  get_conversation_history after (conv_id conv) <> [] /\
  conversations restarted !! conv_id conv = None /\
  get_conversation_history restarted (conv_id conv) = [].
Proof.
  intros H Hs Hi Hsep Hw after restarted.
  destruct (completed_turn_not_reloadable w w' _ _ _ _ _ _ H Hs Hi Hsep Hw)
    as [_ Hload].
  pose proof (completed_call_lookup _ _ _ _ _ _ _ _ H Hs Hi) as Hk.
  fold after in Hload, Hk. split; [|split].
  - unfold get_conversation_history. rewrite Hk. cbn [messages].
    by destruct (messages conv).
  - exact Hload.
  - unfold get_conversation_history. subst restarted. simpl. by rewrite Hload.
Qed.

Lemma restart_forgets_completed_turn_witness :
  get_conversation_history service_after_turn (uuid4 sample_world 0) <> [] /\
  get_conversation_history
    (ChatService_init sample_world (db_directory service_after_turn)
       (conversation_files service_after_turn)) (uuid4 sample_world 0) = [].
Proof.
  pose proof (restart_forgets_completed_turn sample_world sample_world "hi" None
                fresh_service _
                (new_conversation fresh_service (uuid4 sample_world 0))
                [sample_chunk] eq_refl eq_refl eq_refl eq_refl eq_refl)
    as (H1 & _ & H3).
  split; [exact H1|exact H3].
Defined.

(** ** The upload route *)

Lemma take_drop_str (n : nat) (s : string) : Py.take n s +:+ str_drop n s = s.
Proof.
  revert n. induction s as [|c s IH]; intros [|n]; try done.
  simpl. rewrite str_app_cons. by rewrite IH.
Qed.

(** A non-empty extension found by [splitext] ends the path. *)
Lemma splitext_suffix (p : string) :
  (splitext p).2 <> "" -> Py.endswith p (splitext p).2 = true.
Proof.
  unfold splitext. destruct (rfind "." p) as [dotIndex|]; [|done].
  destruct (_ && _); [|done]. simpl. intros _.
  rewrite <- (take_drop_str dotIndex p) at 1. apply endswith_app.
Qed.

Lemma is_allowed_cases (ext : string) :
  is_allowed ext = true ->
  ext = ".pdf" \/ ext = ".docx" \/ ext = ".json" \/ ext = ".csv".
Proof.
  unfold is_allowed, allowed_types. simpl.
  destruct (String.eqb_spec ext ".pdf"); [by left|].
  destruct (String.eqb_spec ext ".docx"); [by right; left|].
  destruct (String.eqb_spec ext ".json"); [by right; right; left|].
  destruct (String.eqb_spec ext ".csv"); [by right; right; right|done].
Qed.

(** The parser [extract_text] picks for a name that ends in one of the four
    extensions. *)
Lemma extract_text_by_extension (iw : IngestWorld) (file : UploadFile) (ext : string) :
  is_allowed ext = true ->
  Py.endswith (Py.lower (upload_filename file)) ext = true ->
  extract_text iw file =
    if String.eqb ext ".pdf" then _process_pdf iw (upload_content file)
    else if String.eqb ext ".docx" then _process_docx iw (upload_content file)
    else if String.eqb ext ".json" then _process_json iw (upload_content file)
    else _process_csv iw (upload_content file).
Proof.
  intros Hallowed Hends.
  destruct (is_allowed_cases ext Hallowed) as [-> | [-> | [-> | ->]]].
  - unfold extract_text. by rewrite Hends.
  - unfold extract_text.
    destruct (Py.endswith _ ".pdf") eqn:Hpdf.
    { by pose proof (endswith_nested _ ".docx" ".pdf" Hends Hpdf (le_S _ _ (le_n _))). }
    by rewrite Hends.
  - unfold extract_text.
    destruct (Py.endswith _ ".pdf") eqn:Hpdf.
    { by pose proof (endswith_nested _ ".json" ".pdf" Hends Hpdf (le_S _ _ (le_n _))). }
    destruct (Py.endswith _ ".docx") eqn:Hdocx.
    { by pose proof (endswith_nested _ ".json" ".docx" Hends Hdocx (le_n _)). }
    by rewrite Hends.
  - by rewrite extract_text_csv.
Qed.

(** X10: the upload route hands a file to the processor only when the
    extension [splitext] finds in its lower-cased name is one of the four
    allowed ones, and the processor then runs the parser of exactly that
    extension: its own unsupported-type error cannot arise. A file with any
    other name, or without extension, is answered with status 500 (the 400
    is caught on its way out) and nothing is stored. *)
Theorem upload_route_dispatch (iw : IngestWorld) (file : UploadFile)
    (dp : DocumentProcessor) :
  let ext := (splitext (Py.lower (upload_filename file))).2 in
  (is_allowed ext = false -> upload_document iw file dp = (HTTPError 500, dp)) /\
  (is_allowed ext = true ->
   extract_text iw file =
     (if String.eqb ext ".pdf" then _process_pdf iw (upload_content file)
      else if String.eqb ext ".docx" then _process_docx iw (upload_content file)
      else if String.eqb ext ".json" then _process_json iw (upload_content file)
      else _process_csv iw (upload_content file)) /\
   upload_document iw file dp =
     match process_document iw file dp with
     | (Ok doc_info, dp') => (Returned doc_info, dp')
     | (Raise _, dp') => (HTTPError 500, dp')
     end).
Proof.
  intros ext. split.
  - intros Hno. unfold upload_document. fold ext. rewrite Hno.
    by destruct (String.eqb ext "").
  - intros Hyes.
    assert (Hne : ext <> "") by (intros E; by rewrite E in Hyes).
    split.
    + apply extract_text_by_extension; [done|]. by apply splitext_suffix.
    + unfold upload_document. fold ext. rewrite Hyes.
      by destruct (String.eqb_spec ext "").
Qed.

Lemma upload_route_dispatch_witness :
  upload_document (sample_ingest 250 None) sample_text_upload empty_processor
    = (HTTPError 500, empty_processor) /\
  extract_text (sample_ingest 250 None) sample_pdf_upload
    = _process_pdf (sample_ingest 250 None) (upload_content sample_pdf_upload).
Proof.
  split.
  - apply (proj1 (upload_route_dispatch (sample_ingest 250 None)
                    sample_text_upload empty_processor)). reflexivity.
  - apply (proj2 (upload_route_dispatch (sample_ingest 250 None)
                    sample_pdf_upload empty_processor)). reflexivity.
Defined.

(** ** The processor *)

(** A file whose name points into a directory that does not exist is not
    written, and nothing of it is kept: the processor raises before any
    parser runs, and the route, which lets the name through for its
    extension, answers with status 500. *)
Lemma nested_upload_is_not_stored :
  process_document (sample_ingest 250 None) sample_nested_upload empty_processor
    = (Raise "No such file or directory", empty_processor) /\
  upload_document (sample_ingest 250 None) sample_nested_upload empty_processor
    = (HTTPError 500, empty_processor).
Proof. split; reflexivity. Qed.

(** X12: after an ingest whose upload was written and whose text extraction
    worked, a processor started on what is on disk has the same catalog as
    the running one, whether or not the embedding step failed; and when that
    step works the call returns the record it stored, marked processed and
    completed, which [list_documents] then lists. *)
Theorem ingest_record_is_stored_and_listed (iw : IngestWorld) (file : UploadFile)
    (dp : DocumentProcessor) (text : string) (pages : Z) :
  write_upload iw (new_doc_id iw +:+ "_" +:+ upload_filename file) = None ->
  extract_text iw file = Ok (text, pages) ->
  let out := process_document iw file dp in
  dp_metadata (DocumentProcessor_init out.2) = dp_metadata out.2 /\
  (add_texts iw (split_text iw text)
     (metadata_list (upload_filename file) (new_doc_id iw)
        (length (split_text iw text))) = None ->
   exists info,
     out.1 = Ok info /\
     dp_metadata out.2 !! new_doc_id iw = Some info /\
     info ∈ list_documents out.2 /\
     info_id info = new_doc_id iw /\
     filename info = upload_filename file /\
     total_pages info = Some pages /\
     status info = "processed" /\
     embedding_status info = "completed" /\
     error info = None).
Proof.
  intros Hw Hx out.
  destruct (process_document_catalog iw file dp _ _ Hw Hx) as (Hres & Hmeta & Hfile).
  fold out in Hres, Hmeta, Hfile. split; [done|].
  intros Hstore. rewrite Hstore in Hres, Hmeta.
  eexists. split; [exact Hres|].
  assert (Hk : dp_metadata out.2 !! new_doc_id iw = Some
    {| info_id := new_doc_id iw; filename := upload_filename file;
       document_type := Py.last_part (Py.split "." (upload_filename file));
       upload_date := now iw; total_pages := Some pages;
       status := "processed"; embedding_status := "completed";
       error := None |}) by (rewrite Hmeta; apply pydict_lookup_insert_eq).
  split; [exact Hk|]. split; [|by repeat split].
  unfold list_documents. exact (pydict_lookup_listed _ _ _ Hk).
Qed.

Lemma ingest_record_is_stored_and_listed_witness :
  exists info,
    (process_document (sample_ingest 250 None) sample_upload empty_processor).1
      = Ok info /\
    info ∈ list_documents
             (process_document (sample_ingest 250 None) sample_upload
                empty_processor).2 /\
    embedding_status info = "completed".
Proof.
  destruct (proj2 (ingest_record_is_stored_and_listed (sample_ingest 250 None)
                     sample_upload empty_processor "a b" 2 eq_refl eq_refl) eq_refl)
    as (info & H1 & _ & H3 & _ & _ & _ & _ & H8 & _).
  exists info. by repeat split.
Defined.

(** X13: the page count of an extracted document is never negative, and it
    is at least 1 unless the name ends in [.pdf]: only the PDF parser
    reports the pages it finds, which may be none. *)
Theorem extracted_page_count_bounds (iw : IngestWorld) (file : UploadFile)
    (text : string) (pages : Z) :
  extract_text iw file = Ok (text, pages) ->
  (0 <= pages)%Z /\
  (Py.endswith (Py.lower (upload_filename file)) ".pdf" = false -> (1 <= pages)%Z).
Proof.
  unfold extract_text.
  destruct (Py.endswith _ ".pdf").
  { unfold _process_pdf. destruct (PdfReader_pages iw _); [|done].
    intros [= _ <-]. split; [lia|done]. }
  destruct (Py.endswith _ ".docx").
  { unfold _process_docx. destruct (docx2txt_process iw _); [|done].
    intros [= _ <-]. split; lia. }
  destruct (Py.endswith _ ".json").
  { unfold _process_json. destruct (json_load iw _); [|done].
    intros [= _ <-]. split; lia. }
  destruct (Py.endswith _ ".csv"); [|done].
  unfold _process_csv. destruct (read_csv iw _); [|done].
  intros [= _ <-]. split; lia.
Qed.

Lemma extracted_page_count_bounds_witness :
  extract_text (sample_ingest 0 None) sample_upload = Ok ("a b", 1%Z) /\
  (0 <= 1)%Z /\ (1 <= 1)%Z.
Proof.
  split; [reflexivity|].
  destruct (extracted_page_count_bounds (sample_ingest 0 None) sample_upload
              "a b" 1 eq_refl) as [H0 H1].
  split; [exact H0|]. apply H1. reflexivity.
Defined.

(** X14: the chunks of a document are stored with one metadata dictionary
    each; the one of chunk [i] (from 0) names the uploaded file and gives
    [i + 1] as page number, so the source built when that chunk is retrieved
    shows the file name and the position of the chunk plus one, whatever
    page the text was on. *)
Theorem chunk_metadata_numbers_chunks (name doc_id text : string) (n i : nat) :
  i < n ->
  length (metadata_list name doc_id n) = n /\
  exists md,
    metadata_list name doc_id n !! i = Some md /\
    md_document_name md = Some name /\
    md_document_id md = Some doc_id /\
    md_chunk md = Some (Z.of_nat i) /\
    md_page_number md = Some (Z.of_nat i + 1)%Z /\
    Source_of {| page_content := text; metadata := md |} =
      {| document_name := name;
         page_number := (Z.of_nat i + 1)%Z;
         content_snippet := Py.take 200 text +:+ "..." |}.
Proof.
  intros Hi. unfold metadata_list. split; [by rewrite length_map, length_seq|].
  eexists. split.
  - rewrite list_lookup_fmap, lookup_seq_lt by done. reflexivity.
  - by repeat split.
Qed.

Lemma chunk_metadata_numbers_chunks_witness :
  length (metadata_list "doc.pdf" "d1" 3) = 3 /\
  exists md,
    metadata_list "doc.pdf" "d1" 3 !! 2 = Some md /\
    md_page_number md = Some 3%Z.
Proof.
  destruct (chunk_metadata_numbers_chunks "doc.pdf" "d1" "abc" 3 2)
    as (Hlen & md & Hmd & _ & _ & _ & Hp & _); [lia|].
  split; [exact Hlen|]. exists md. by split.
Defined.

(** ** Exporting a conversation *)

Lemma write_txt_turns (rs : list ChatResponse) :
  forall written : string,
    write_txt written (map Turn rs) =
    (Ok tt, written +:+ foldr (fun r out => txt_turn r +:+ out) "" rs).
Proof.
  induction rs as [|r rs IH]; intros written; simpl.
  - f_equal. clear. induction written as [|c s IH]; [done|].
    rewrite str_app_cons. by rewrite <- IH.
  - rewrite IH. by rewrite str_app_assoc.
Qed.

Lemma format_turns (rs : list ChatResponse) :
  mapM format_message (map Turn rs) = Some (map Turn rs).
Proof. apply mapM_Some. induction rs; by constructor. Qed.

(** X15: exporting as text a conversation whose messages are [ChatResponse]
    objects, at least one, writes one file into the export directory: the
    blocks of the turns in their order, nothing else. The route returns the
    name of the file, and the download route, given that name, finds the
    file and serves the very path that was written. The format is matched
    without regard to case. *)
Theorem text_export_is_downloadable (ew : ExportWorld) (export_dir : string)
    (svc : ChatService) (request : ExportRequest) (fs : gmap string string)
    (rs : list ChatResponse) :
  let cid := request_conversation_id request in
  let file_name := _create_filename ew cid "txt" in
  let path := posixpath.join export_dir file_name in
  get_conversation_history svc cid = map Turn rs ->
  rs <> [] ->
  Py.lower (request_format request) = "txt" ->
  can_open ew path = true ->
  let out := export_chat_route ew export_dir svc request fs in
  out.1 = Returned file_name /\
  out.2 = <[path := foldr (fun r text => txt_turn r +:+ text) "" rs]> fs /\
  download_file export_dir (path_exists out.2) file_name =
    FileResponse path file_name.
Proof.
  intros cid file_name path Hhist Hne Hfmt Hopen out.
  assert (Hout : out = (Returned file_name,
                        <[path := foldr (fun r text => txt_turn r +:+ text) "" rs]> fs)).
  { subst out. unfold export_chat_route. fold cid. rewrite Hhist.
    destruct rs as [|r rs]; [done|]. cbn [map].
    change (Turn r :: map Turn rs) with (map Turn (r :: rs)).
    unfold export_chat. rewrite format_turns, Hfmt. simpl String.eqb. cbv iota.
    unfold export_to_txt. fold file_name path. rewrite Hopen.
    by rewrite write_txt_turns. }
  rewrite Hout. simpl. split; [done|]. split; [done|].
  unfold download_file, get_export_path, path_exists. fold path.
  rewrite lookup_insert_eq. rewrite bool_decide_true by eauto. done.
Qed.

Lemma text_export_is_downloadable_witness :
  (export_chat_route sample_export_world "/srv/app/exported_chats"
     service_after_turn
     {| request_conversation_id := uuid4 sample_world 0; request_format := "TXT" |}
     ∅).1
  = Returned (_create_filename sample_export_world (uuid4 sample_world 0) "txt").
Proof.
  refine (proj1 (text_export_is_downloadable sample_export_world
            "/srv/app/exported_chats" service_after_turn
            {| request_conversation_id := uuid4 sample_world 0;
               request_format := "TXT" |} ∅
            [{| response := "Hello"; sources := Some [Source_of sample_chunk];
                conversation_id := Some (uuid4 sample_world 0);
                user_message := "hi" |}] _ _ _ _));
    solve [reflexivity | discriminate].
Defined.

(** X16: the export route answers with status 500, and writes nothing, when
    the conversation is unknown or has no message yet (the 404 raised for it
    is caught on its way out), and when the format, lower-cased, is neither
    [pdf] nor [txt]. *)
Theorem export_route_refusals (ew : ExportWorld) (export_dir : string)
    (svc : ChatService) (request : ExportRequest) (fs : gmap string string) :
  conversations svc !! request_conversation_id request = None \/
  get_conversation_history svc (request_conversation_id request) = [] \/
  (Py.lower (request_format request) <> "pdf" /\
   Py.lower (request_format request) <> "txt") ->
  export_chat_route ew export_dir svc request fs = (HTTPError 500, fs).
Proof.
  intros H. unfold export_chat_route.
  assert (Hcases :
    get_conversation_history svc (request_conversation_id request) = [] \/
    (Py.lower (request_format request) <> "pdf" /\
     Py.lower (request_format request) <> "txt")).
  { destruct H as [H|[H|H]]; [left|by left|by right].
    unfold get_conversation_history. by rewrite H. }
  destruct Hcases as [->|[Hpdf Htxt]]; [done|].
  destruct (get_conversation_history _ _) as [|m l]; [done|].
  unfold export_chat. destruct (mapM format_message (m :: l)); [|done].
  destruct (String.eqb_spec (Py.lower (request_format request)) "pdf"); [done|].
  by destruct (String.eqb_spec (Py.lower (request_format request)) "txt").
Qed.

Lemma export_route_refusals_witness :
  export_chat_route sample_export_world "/srv/app/exported_chats"
    service_after_turn
    {| request_conversation_id := uuid4 sample_world 0; request_format := "docx" |}
    ∅ = (HTTPError 500, ∅) /\
  export_chat_route sample_export_world "/srv/app/exported_chats"
    (_get_or_create_conversation sample_world (Some "mine") fresh_service).2
    {| request_conversation_id := "mine"; request_format := "txt" |}
    ∅ = (HTTPError 500, ∅).
Proof.
  split.
  - apply export_route_refusals. right. right. split; discriminate.
  - apply export_route_refusals. right. left. reflexivity.
Defined.

(** ** Plain file names *)

Lemma split_plain (s : string) :
  has_separator s = false -> Py.split "/" s = [s].
Proof.
  induction s as [|c s IH]; [done|]. simpl.
  destruct (Ascii.eqb c "/"); [done|]. intros H. by rewrite IH.
Qed.

Lemma startswith_plain (s : string) :
  has_separator s = false -> Py.startswith s "/" = false.
Proof.
  destruct s as [|c s]; [done|]. cbn [has_separator Py.startswith].
  destruct (Ascii.eqb_spec c "/") as [->|Hne]; [done|]. intros _.
  by destruct (Ascii.eqb_spec "/" c); [congruence|].
Qed.

Lemma starts_with_app (l k : list string) : posixpath.starts_with l (l ++ k) = true.
Proof. induction l as [|a l IH]; [done|]. simpl. by rewrite String.eqb_refl. Qed.

(** Joining a name without separator steps the normalisation once more. *)
Lemma components_join_plain (d f : string) :
  has_separator f = false ->
  posixpath.isabs (posixpath.join d f) = posixpath.isabs d /\
  posixpath.components (posixpath.join d f) =
  rev (posixpath.norm_step (posixpath.isabs d) (rev (posixpath.components d)) f).
Proof.
  intros Hf. unfold posixpath.components at 2. rewrite rev_involutive.
  unfold posixpath.join. rewrite (startswith_plain f Hf).
  destruct (String.eqb_spec d "") as [->|Hd].
  { simpl orb. cbv iota. change ("" +:+ f) with f.
    unfold posixpath.components, posixpath.isabs.
    rewrite (startswith_plain f Hf), (split_plain f Hf). done. }
  simpl orb. destruct (Py.endswith d "/") eqn:E.
  - destruct (endswith_suffix _ _ E) as [p ->].
    rewrite isabs_app by done. split; [done|].
    unfold posixpath.components. f_equal.
    rewrite isabs_app by done.
    rewrite str_app_assoc. change ("/" +:+ f) with (String "/" f).
    change (p +:+ "/") with (p +:+ String "/" "").
    rewrite !split_app_sep, (split_plain f Hf). simpl Py.split.
    by rewrite !fold_left_app.
  - rewrite isabs_app by done. split; [done|].
    unfold posixpath.components. f_equal.
    rewrite isabs_app by done.
    change (d +:+ "/" +:+ f) with (d +:+ String "/" f).
    rewrite split_app_sep, (split_plain f Hf). by rewrite fold_left_app.
Qed.

(** X17: for a file name that is one ordinary path component (no separator,
    not empty, not a dot or two), the export path is the export directory
    with that one component added, hence inside the directory. *)
Theorem plain_name_stays_in_export_dir (export_dir filename : string) :
  has_separator filename = false ->
  filename <> "" -> filename <> "." -> filename <> ".." ->
  posixpath.components (get_export_path export_dir filename) =
    posixpath.components export_dir ++ [filename] /\
  posixpath.inside export_dir (get_export_path export_dir filename) = true.
Proof.
  intros Hsep H0 H1 H2. unfold get_export_path, posixpath.inside.
  destruct (components_join_plain export_dir filename Hsep) as [-> Hc].
  assert (Hcomp : posixpath.components (posixpath.join export_dir filename) =
                  posixpath.components export_dir ++ [filename]).
  { rewrite Hc. unfold posixpath.norm_step.
    destruct (String.eqb_spec filename ""); [done|].
    destruct (String.eqb_spec filename "."); [done|].
    destruct (String.eqb_spec filename ".."); [done|].
    simpl. by rewrite rev_involutive. }
  split; [done|]. rewrite Hcomp, starts_with_app.
  by destruct (posixpath.isabs export_dir).
Qed.

Lemma plain_name_stays_in_export_dir_witness :
  posixpath.inside "/srv/app/exported_chats"
    (get_export_path "/srv/app/exported_chats"
       (_create_filename sample_export_world "abc" "txt")) = true.
Proof.
  refine (proj2 (plain_name_stays_in_export_dir "/srv/app/exported_chats"
                   (_create_filename sample_export_world "abc" "txt") _ _ _ _));
    solve [reflexivity | discriminate].
Defined.

(** ** The order of the events *)

(** X18: the events of a call come in the order placeholder, streaming
    events, error event. When the session is resolved and the chunks are
    retrieved, the first event is the placeholder with the fixed thinking
    text, one streaming event follows for each increment with content, and
    an error event closes the list exactly when the model broke off. When
    resolution or retrieval fails, the error event is the only event. *)
Theorem events_follow_the_phases (w : World) (message : string)
    (conversation_id : option string) (svc : ChatService) :
  let r := get_streaming_response w message conversation_id svc in
  match _get_or_create_conversation w conversation_id svc with
  | (Raise _, _) => map fst (events r) = [Failure]
  | (Ok (_, conv), _) =>
      match similarity_search w message with
      | Raise _ => map fst (events r) = [Failure]
      | Ok docs =>
          let out := astream w (build_messages
                                  (Py.join nl (map page_content docs)) message
                                  (history conv)) in
          map fst (events r) =
            Thinking :: replicate (length (deltas out)) Streaming
            ++ match interrupted out with
               | Some _ => [Failure]
               | None => []
               end /\
          (ev_response <$> (snd <$> head (events r))) = Some thinking_response
      end
  end.
Proof.
  intros r. subst r.
  destruct (_get_or_create_conversation w conversation_id svc)
    as [[[key conv]|e] svc1] eqn:H.
  2:{ by rewrite (run_resolution_failed _ _ _ _ _ _ H). }
  destruct (similarity_search w message) as [docs|e] eqn:Hs.
  2:{ by rewrite (run_retrieval_failed _ _ _ _ _ _ _ _ H Hs). }
  destruct (run_generation _ _ _ _ _ _ _ _ H Hs) as (_ & -> & _).
  split; [|done]. cbn [map fst]. f_equal. rewrite map_app, map_map. f_equal.
  - unfold deltas. rewrite <- (stream_events_length
      (chat_event (map Source_of docs) (conv_id conv) message) _ "").
    generalize (stream_events (chat_event (map Source_of docs) (conv_id conv) message)
                  "" (increments (astream w (build_messages
                     (Py.join nl (map page_content docs)) message (history conv))))).1.
    intros l. induction l as [|x l IH]; [done|]. simpl. by f_equal.
  - by destruct (interrupted _).
Qed.

(** ** The recorded document type *)






(** ** The size of the catalog *)

(** X20: an ingest whose upload was written, whose text extraction worked
    and whose new id is not yet in the catalog adds exactly one document to
    those [list_documents] returns, at the end of the list, and leaves the
    others in their order, whether or not the embedding step fails. *)
Theorem ingest_adds_one_document (iw : IngestWorld) (file : UploadFile)
    (dp : DocumentProcessor) (text : string) (pages : Z) :
  write_upload iw (new_doc_id iw +:+ "_" +:+ upload_filename file) = None ->
  extract_text iw file = Ok (text, pages) ->
  dp_metadata dp !! new_doc_id iw = None ->
  let out := process_document iw file dp in
  length (list_documents out.2) = S (length (list_documents dp)) /\
  (forall info, info ∈ list_documents dp -> info ∈ list_documents out.2) /\
  exists info,
    list_documents out.2 = list_documents dp ++ [info] /\
    info_id info = new_doc_id iw.
Proof.
  intros Hw Hx Hnew out.
  destruct (process_document_catalog iw file dp _ _ Hw Hx) as (_ & Hmeta & _).
  fold out in Hmeta.
  assert (Hlist : exists info,
            list_documents out.2 = list_documents dp ++ [info] /\
            info_id info = new_doc_id iw).
  { eexists. unfold list_documents.
    rewrite Hmeta, (pydict_insert_new _ _ _ Hnew), fmap_app. by split. }
  destruct Hlist as (info & Hlist & Hid). rewrite Hlist. split; [|split].
  - rewrite length_app. simpl. lia.
  - intros i Hi. apply elem_of_app. by left.
  - by exists info.
Qed.

Lemma ingest_adds_one_document_witness :
  length (list_documents
            (process_document (sample_ingest 250 (Some "boom")) sample_upload
               empty_processor).2) = 1.
Proof.
  exact (proj1 (ingest_adds_one_document (sample_ingest 250 (Some "boom"))
                  sample_upload empty_processor "a b" 2 eq_refl eq_refl eq_refl)).
Defined.
